(** * REST2v5 clear-sky irradiance model (irradpy.model.clearSkyRadiation_REST2v5)

    A shallow embedding of the class [ClearSkyREST2v5]: its constructor
    [__init__], the numeric kernel [clear_sky_REST2V5] and the orchestrator
    [REST2v5].

    Conventions of the embedding.

    - A NumPy [float64] is a primitive binary64 float ([float], with IEEE
      comparisons: every comparison with NaN is false).  Python's [x > c] is
      [c <? x].
    - The elementary functions of NumPy ([np.cos], [np.exp], [np.log],
      [np.power], [np.rad2deg], [np.deg2rad]) and its complex128 arithmetic
      are library code outside the repository.  They are the fields of the
      class [NumPy]; every theorem about the float model holds for every
      instance.  [RefNumPy.ref] is an executable instance (series
      evaluation in binary64) used to evaluate the model at concrete inputs.
    - An [ndarray] is a shape with its row-major data.  NumPy evaluates each
      statement of [clear_sky_REST2V5] element by element over arrays of one
      common shape; the model evaluates the statements on the elements found
      at one index ([point]) and maps over the indices of [zenith_angle].
      Broadcasting between arrays of different shapes is outside the model.
    - Arrays are objects in a [heap]; a boolean-mask assignment
      [a[mask] = v] updates the object in place ([alter]).
    - The collaborators of [REST2v5] ([latlon2solarzenith],
      [data_eext_builder], [extract_for_MERRA2]) are not part of the sources
      and are parameters of the orchestrator. *)

From Stdlib Require Import ZArith List Bool String Floats Uint63 Lia.
From stdpp Require Import base option list gmap.

Set Warnings "-inexact-float".
Local Open Scope float_scope.

(* ================================================================= *)
(** * Binary64 values and NumPy's interface *)

(** A complex128 value: real and imaginary part. *)
Definition complex : Type := (float * float)%type.

(** The cast of a float64 (array element or Python scalar) to complex128. *)
Definition of_real (x : float) : complex := (x, 0).

(** The functions of NumPy the model calls. *)
Class NumPy : Type := {
  np_cos : float -> float;
  np_exp : float -> float;
  np_log : float -> float;
  np_power : float -> float -> float;
  np_rad2deg : float -> float;
  np_deg2rad : float -> float;
  c_add : complex -> complex -> complex;
  c_sub : complex -> complex -> complex;
  c_mul : complex -> complex -> complex;
  c_div : complex -> complex -> complex;
  c_power : complex -> complex -> complex;
  c_abs : complex -> float
}.

(** [np.pi] *)
Definition np_pi : float := 3.141592653589793.

(** [a[a > hi] = hi] and [a[a < lo] = lo], on one element. *)
Definition set_gt (hi x : float) : float := if hi <? x then hi else x.
Definition set_lt (lo x : float) : float := if x <? lo then lo else x.

(** The two assignments in the order of the source: upper bound first. *)
Definition clamp (lo hi x : float) : float := set_lt lo (set_gt hi x).

(** [lo <= x <= hi] *)
Definition in_range (lo hi x : float) : bool := (lo <=? x) && (x <=? hi).

(** The documented bounds, lines 60-71. *)
Definition clamp_Angstrom_exponent : float -> float := clamp 0 2.5.
Definition clamp_pressure : float -> float := clamp 300 1100.
Definition clamp_water_vapour : float -> float := clamp 0 10.
Definition clamp_ozone : float -> float := clamp 0 0.6.
Definition clamp_nitrogen_dioxide : float -> float := clamp 0 0.03.
Definition clamp_surface_albedo : float -> float := clamp 0 1.

(* ================================================================= *)
(** * The kernel on one element *)

Section Kernel.
Context {np : NumPy}.

(** ** Air masses, lines 73-92 *)

(** [complex_temp = np.array(zenith_angle * 180. / np.pi, dtype=np.complex)] *)
Definition complex_temp (zenith_angle : float) : complex :=
  of_real (zenith_angle * 180 / np_pi).

Record air_mass : Type := AirMass {
  ama : float; amw : float; amo : float; amR : float; amRe : float
}.

Definition air_masses (zenith_angle pressure : float) : air_mass :=
  let ct := complex_temp zenith_angle in
  let cosz := of_real (np_cos zenith_angle) in
  let ama := c_abs (c_power
      (c_add cosz (c_div (c_mul (of_real 0.16851) (c_power ct (of_real 0.18198)))
                         (c_power (c_sub (of_real 95.318) ct) (of_real 1.9542))))
      (of_real (-1))) in
  let amw := c_abs (c_power
      (c_add cosz (c_div (c_mul (of_real 0.10648) (c_power ct (of_real 0.11423)))
                         (c_power (c_sub (of_real 93.781) ct) (of_real 1.9203))))
      (of_real (-1))) in
  let amo := c_abs (c_power
      (c_add cosz (c_div (c_mul (of_real 1.0651) (c_power ct (of_real 0.6379)))
                         (c_power (c_sub (of_real 101.8) ct) (of_real 2.2694))))
      (of_real (-1))) in
  let amR := c_abs (c_power
      (c_add cosz (c_div (c_mul (of_real 0.48353) (c_power ct (of_real 0.095846)))
                         (c_power (c_sub (of_real 96.741) ct) (of_real 1.754))))
      (of_real (-1))) in
  let amRe := c_abs (c_mul (of_real (pressure / 1013.25)) (c_power
      (c_add cosz (c_div (c_mul (of_real 0.48353) (c_power ct (of_real 0.095846)))
                         (c_power (c_sub (of_real 96.741) ct) (of_real 1.754))))
      (of_real (-1)))) in
  AirMass ama amw amo amR amRe.

(** ** Angstrom turbidity, lines 94-97 *)

Definition ang_beta (AOD550 Angstrom_exponent : float) : float :=
  let ang_beta := AOD550 / np_power 0.55 (-1 * Angstrom_exponent) in
  let ang_beta := set_gt 1.1 ang_beta in
  let ang_beta := set_lt 0 ang_beta in
  ang_beta.

(** ** Band 1, lines 99-161 *)

Record band : Type := Band {
  TR : float; Tg : float; To : float; Tn : float; Tn166 : float;
  Tw : float; Tw166 : float; TA : float; TAS : float;
  BR : float; F : float; rs : float
}.

Definition band1 (am : air_mass)
    (ozone nitrogen_dioxide water_vapour Angstrom_exponent ang_beta : float) : band :=
  let amRe := amRe am in let amo := amo am in let amw := amw am in
  let ama := ama am in let amR := amR am in
  (* transmittance for Rayleigh scattering *)
  let TR1 := (1 + 1.8169 * amRe - 0.033454 * np_power amRe 2)
             / (1 + 2.063 * amRe + 0.31978 * np_power amRe 2) in
  (* transmittance for uniformly mixed gases absorption *)
  let Tg1 := (1 + 0.95885 * amRe + 0.012871 * np_power amRe 2)
             / (1 + 0.96321 * amRe + 0.015455 * np_power amRe 2) in
  (* transmittance for Ozone absorption *)
  let uo := ozone in
  let f1 := uo * (10.979 - 8.5421 * uo) / (1 + 2.0115 * uo + 40.189 * np_power uo 2) in
  let f2 := uo * (-0.027589 - 0.005138 * uo) / (1 - 2.4857 * uo + 13.942 * np_power uo 2) in
  let f3 := uo * (10.995 - 5.5001 * uo) / (1 + 1.6784 * uo + 42.406 * np_power uo 2) in
  let To1 := (1 + f1 * amo + f2 * np_power amo 2) / (1 + f3 * amo) in
  (* transmittance for Nitrogen dioxide absorption *)
  let un := nitrogen_dioxide in
  let g1 := (0.17499 + 41.654 * un - 2146.4 * np_power un 2) / (1 + 22295 * np_power un 2) in
  let g2 := un * (-1.2134 + 59.324 * un) / (1 + 8847.8 * np_power un 2) in
  let g3 := (0.17499 + 61.658 * un + 9196.4 * np_power un 2) / (1 + 74109 * np_power un 2) in
  let Tn1_middle := (1 + g1 * amw + g2 * np_power amw 2) / (1 + g3 * amw) in
  let Tn1_middle := set_gt 1 Tn1_middle in
  let Tn1 := Tn1_middle in
  let Tn1166_middle := (1 + g1 * 1.66 + g2 * np_power 1.66 2) / (1 + g3 * 1.66) in
  let Tn1166_middle := set_gt 1 Tn1166_middle in
  let Tn1166 := Tn1166_middle in
  (* transmittance for Water Vapor absorption *)
  let h1 := water_vapour * (0.065445 + 0.00029901 * water_vapour) / (1 + 1.2728 * water_vapour) in
  let h2 := water_vapour * (0.065687 + 0.0013218 * water_vapour) / (1 + 1.2008 * water_vapour) in
  let Tw1 := (1 + h1 * amw) / (1 + h2 * amw) in
  let Tw1166 := (1 + h1 * 1.66) / (1 + h2 * 1.66) in
  (* coefficients of angstrom_alpha *)
  let AB1 := ang_beta in
  let alph1 := Angstrom_exponent in
  let d0 := 0.57664 - 0.024743 * alph1 in
  let d1 := (0.093942 - 0.2269 * alph1 + 0.12848 * np_power alph1 2) / (1 + 0.6418 * alph1) in
  let d2 := (-0.093819 + 0.36668 * alph1 - 0.12775 * np_power alph1 2) / (1 - 0.11651 * alph1) in
  let d3 := alph1 * (0.15232 - 0.087214 * alph1 + 0.012664 * np_power alph1 2)
            / (1 - 0.90454 * alph1 + 0.26167 * np_power alph1 2) in
  let ua1 := np_log (1 + ama * AB1) in
  let lam1 := (d0 + d1 * ua1 + d2 * np_power ua1 2) / (1 + d3 * np_power ua1 2) in
  (* Aerosol transmittance *)
  let ta1 := abs (AB1 * np_power lam1 (-1 * alph1)) in
  let TA1 := np_exp (- ama * ta1) in
  (* Aerosol scattering transmittance *)
  let TAS1 := np_exp (- ama * 0.92 * ta1) in
  (* forward scattering fractions for Rayleigh extinction *)
  let BR1 := 0.5 * (0.89013 - 0.0049558 * amR + 0.000045721 * np_power amR 2) in
  (* Aerosol scattering correction factor *)
  let g0 := (3.715 + 0.368 * ama + 0.036294 * np_power ama 2) / (1 + 0.0009391 * np_power ama 2) in
  let g1 := (-0.164 - 0.72567 * ama + 0.20701 * np_power ama 2) / (1 + 0.0019012 * np_power ama 2) in
  let g2 := (-0.052288 + 0.31902 * ama + 0.17871 * np_power ama 2) / (1 + 0.0069592 * np_power ama 2) in
  let F1 := (g0 + g1 * ta1) / (1 + g2 * ta1) in
  (* sky albedo *)
  let rs1 := (0.13363 + 0.00077358 * alph1 + AB1 * (0.37567 + 0.22946 * alph1) / (1 - 0.10832 * alph1))
             / (1 + AB1 * (0.84057 + 0.68683 * alph1) / (1 - 0.08158 * alph1)) in
  Band TR1 Tg1 To1 Tn1 Tn1166 Tw1 Tw1166 TA1 TAS1 BR1 F1 rs1.

(** ** Band 2, lines 163-216 *)

(** [Ba], the aerosol forward scatterance factor (line 206), is shared by
    the two bands. *)
Definition Ba (zenith_angle : float) : float :=
  1 - np_exp (-0.6931 - 1.8326 * np_cos zenith_angle).

Definition band2 (am : air_mass)
    (water_vapour Angstrom_exponent ang_beta : float) : band :=
  let amRe := amRe am in let amw := amw am in let ama := ama am in
  (* transmittance for Rayleigh scattering *)
  let TR2 := (1 - 0.010394 * amRe) / (1 - 0.00011042 * np_power amRe 2) in
  (* transmittance for uniformly mixed gases absorption *)
  let Tg2 := (1 + 0.27284 * amRe - 0.00063699 * np_power amRe 2) / (1 + 0.30306 * amRe) in
  (* Ozone (none), Nitrogen (none) *)
  let To2 := 1 in
  let Tn2 := 1 in
  let Tn2166 := 1 in
  (* transmittance for water vapor absorption *)
  let c1 := water_vapour * (19.566 - 1.6506 * water_vapour + 1.0672 * np_power water_vapour 2)
            / (1 + 5.4248 * water_vapour + 1.6005 * np_power water_vapour 2) in
  let c2 := water_vapour * (0.50158 - 0.14732 * water_vapour + 0.047584 * np_power water_vapour 2)
            / (1 + 1.1811 * water_vapour + 1.0699 * np_power water_vapour 2) in
  let c3 := water_vapour * (21.286 - 0.39232 * water_vapour + 1.2692 * np_power water_vapour 2)
            / (1 + 4.8318 * water_vapour + 1.412 * np_power water_vapour 2) in
  let c4 := water_vapour * (0.70992 - 0.23155 * water_vapour + 0.096514 * np_power water_vapour 2)
            / (1 + 0.44907 * water_vapour + 0.75425 * np_power water_vapour 2) in
  let Tw2 := (1 + c1 * amw + c2 * np_power amw 2) / (1 + c3 * amw + c4 * np_power amw 2) in
  let Tw2166 := (1 + c1 * 1.66 + c2 * np_power 1.66 2) / (1 + c3 * 1.66 + c4 * np_power 1.66 2) in
  (* coefficients of angstrom_alpha *)
  let AB2 := ang_beta in
  let alph2 := Angstrom_exponent in
  let e0 := (1.183 - 0.022989 * alph2 + 0.020829 * np_power alph2 2) / (1 + 0.11133 * alph2) in
  let e1 := (-0.50003 - 0.18329 * alph2 + 0.23835 * np_power alph2 2) / (1 + 1.6756 * alph2) in
  let e2 := (-0.50001 + 1.1414 * alph2 + 0.0083589 * np_power alph2 2) / (1 + 11.168 * alph2) in
  let e3 := (-0.70003 - 0.73587 * alph2 + 0.51509 * np_power alph2 2) / (1 + 4.7665 * alph2) in
  let ua2 := np_log (1 + ama * AB2) in
  let lam2 := (e0 + e1 * ua2 + e2 * np_power ua2 2) / (1 + e3 * ua2) in
  (* Aerosol transmittance *)
  let lam2_temp := of_real lam2 in
  let ta2 := c_abs (c_mul (of_real AB2) (c_power lam2_temp (of_real (-1 * alph2)))) in
  let TA2 := np_exp (-1 * ama * ta2) in
  let TAS2 := np_exp (-1 * ama * 0.84 * ta2) in
  (* forward scattering fractions for Rayleigh extinction *)
  let BR2 := 0.5 in
  (* Aerosol scattering correction *)
  let h0 := (3.4352 + 0.65267 * ama + 0.00034328 * np_power ama 2) / (1 + 0.034388 * np_power ama 1.5) in
  let h1 := (1.231 - 1.63853 * ama + 0.20667 * np_power ama 2) / (1 + 0.1451 * np_power ama 1.5) in
  let h2 := (0.8889 - 0.55063 * ama + 0.50152 * np_power ama 2) / (1 + 0.14865 * np_power ama 1.5) in
  let F2 := (h0 + h1 * ta2) / (1 + h2 * ta2) in
  (* sky albedo *)
  let rs2 := (0.010191 + 0.00085547 * alph2 + AB2 * (0.14618 + 0.062758 * alph2) / (1 - 0.19402 * alph2))
             / (1 + AB2 * (0.58101 + 0.17426 * alph2) / (1 - 0.17586 * alph2)) in
  Band TR2 Tg2 To2 Tn2 Tn2166 Tw2 Tw2166 TA2 TAS2 BR2 F2 rs2.

(** ** Irradiance of one band, lines 218-237 *)

Record band_irradiance : Type := BandIrradiance {
  Ebn : float;   (* direct beam irradiance *)
  Edp : float;   (* incident diffuse irradiance on a perfectly absorbing ground *)
  Edd : float    (* multiple reflections between the ground and the atmosphere *)
}.

(** [fraction] is 0.46512 for band 1 and 0.51951 for band 2. *)
Definition irradiance (fraction : float) (b : band)
    (zenith_angle Eext rg : float) : band_irradiance :=
  let E0n := Eext * fraction in
  let Ebn := E0n * TR b * Tg b * To b * Tn b * Tw b * TA b in
  let Edp := E0n * np_cos zenith_angle * To b * Tg b * Tn166 b * Tw166 b
             * (BR b * (1 - TR b) * np_power (TA b) 0.25
                + Ba zenith_angle * F b * TR b * (1 - np_power (TAS b) 0.25)) in
  let Edd := rg * rs b * (Ebn * np_cos zenith_angle + Edp) / (1 - rg * rs b) in
  BandIrradiance Ebn Edp Edd.

(** ** Totals and quality control, lines 238-263 *)

(** [a[np.rad2deg(zenith_angle) > 90] = 0] *)
Definition below_horizon (zenith_angle : float) : bool :=
  90 <? np_rad2deg zenith_angle.

Definition set_night (zenith_angle x : float) : float :=
  if below_horizon zenith_angle then 0 else x.

(** [a[a < lower] = np.nan] with [lower = 0], then [a[np.isnan(a)] = 0]. *)
Definition set_negative_nan (x : float) : float := if x <? 0 then nan else x.
Definition set_nan_zero (x : float) : float := if is_nan x then 0 else x.
Definition quality_control (x : float) : float := set_nan_zero (set_negative_nan x).

(** The values before quality control. *)
Record totals : Type := Totals {
  Ebh : float; raw_dni : float; raw_dhi : float; raw_ghi : float
}.

Definition band_totals (zenith_angle : float) (i1 i2 : band_irradiance) : totals :=
  (* direct horizontal irradiance *)
  let Ebh := (Ebn i1 + Ebn i2) * np_cos zenith_angle in
  let dni := Ebn i1 + Ebn i2 in
  (* correct for zenith angle *)
  let dni := set_night zenith_angle dni in
  let Ebh := set_night zenith_angle Ebh in
  (* diffuse horizontal irradiance *)
  let dhi := Edp i1 + Edd i1 + Edp i2 + Edd i2 in
  let dhi := set_night zenith_angle dhi in
  (* global horizontal irradiance *)
  let ghi := Ebh + dhi in
  Totals Ebh dni dhi ghi.

(** ** One element of the arrays *)

(** The nine inputs at one index. *)
Record point : Type := Point {
  p_zenith_angle : float; p_Eext : float; p_pressure : float;
  p_water_vapour : float; p_ozone : float; p_nitrogen_dioxide : float;
  p_AOD550 : float; p_Angstrom_exponent : float; p_surface_albedo : float
}.

(** Lines 73-237 on the (already clamped) inputs at one index. *)
Definition band_irradiances (p : point) : band_irradiance * band_irradiance :=
  let am := air_masses (p_zenith_angle p) (p_pressure p) in
  let beta := ang_beta (p_AOD550 p) (p_Angstrom_exponent p) in
  let b1 := band1 am (p_ozone p) (p_nitrogen_dioxide p) (p_water_vapour p)
                  (p_Angstrom_exponent p) beta in
  let b2 := band2 am (p_water_vapour p) (p_Angstrom_exponent p) beta in
  let rg := p_surface_albedo p in
  (irradiance 0.46512 b1 (p_zenith_angle p) (p_Eext p) rg,
   irradiance 0.51951 b2 (p_zenith_angle p) (p_Eext p) rg).

Definition point_totals (p : point) : totals :=
  let '(i1, i2) := band_irradiances p in
  band_totals (p_zenith_angle p) i1 i2.

(** [ghi], [dni], [dhi] at one index, as returned. *)
Definition point_ghi (p : point) : float := quality_control (raw_ghi (point_totals p)).
Definition point_dni (p : point) : float := quality_control (raw_dni (point_totals p)).
Definition point_dhi (p : point) : float := quality_control (raw_dhi (point_totals p)).

End Kernel.

(* ================================================================= *)
(** * Arrays, the heap and [clear_sky_REST2V5] *)

(** An [np.ndarray] of float64: its shape and its elements in row-major
    order. *)
Record ndarray : Type := NdArray { shape : list nat; data : list float }.

(** [np.size] *)
Definition size (a : ndarray) : nat := length (data a).

(** The element at a flat index. *)
Definition elem (a : ndarray) (i : nat) : float := nth i (data a) nan.

(** An element-wise operation keeps the shape. *)
Definition amap (f : float -> float) (a : ndarray) : ndarray :=
  NdArray (shape a) (f <$> data a).

(** Array objects live in a heap; a variable holds a reference. *)
Abbreviation loc := nat (only parsing).
Abbreviation heap := (gmap nat ndarray).

Definition deref (h : heap) (l : loc) : ndarray :=
  default (NdArray [] []) (h !! l).

(** The nine array arguments of [clear_sky_REST2V5], by reference. *)
Record args : Type := Args {
  a_zenith_angle : loc; a_Eext : loc; a_pressure : loc;
  a_water_vapour : loc; a_ozone : loc; a_nitrogen_dioxide : loc;
  a_AOD550 : loc; a_Angstrom_exponent : loc; a_surface_albedo : loc
}.

(** Lines 60-71: twelve boolean-mask assignments, each in place. *)
Definition clamp_inputs (a : args) (h : heap) : heap :=
  let h := alter (amap (set_gt 2.5)) (a_Angstrom_exponent a) h in
  let h := alter (amap (set_lt 0)) (a_Angstrom_exponent a) h in
  let h := alter (amap (set_gt 1100)) (a_pressure a) h in
  let h := alter (amap (set_lt 300)) (a_pressure a) h in
  let h := alter (amap (set_gt 10)) (a_water_vapour a) h in
  let h := alter (amap (set_lt 0)) (a_water_vapour a) h in
  let h := alter (amap (set_gt 0.6)) (a_ozone a) h in
  let h := alter (amap (set_lt 0)) (a_ozone a) h in
  let h := alter (amap (set_gt 0.03)) (a_nitrogen_dioxide a) h in
  let h := alter (amap (set_lt 0)) (a_nitrogen_dioxide a) h in
  let h := alter (amap (set_gt 1)) (a_surface_albedo a) h in
  let h := alter (amap (set_lt 0)) (a_surface_albedo a) h in
  h.

Section ClearSky.
Context {np : NumPy}.

(** The inputs found at index [i] of the nine arrays. *)
Definition point_at (a : args) (h : heap) (i : nat) : point :=
  Point (elem (deref h (a_zenith_angle a)) i)
        (elem (deref h (a_Eext a)) i)
        (elem (deref h (a_pressure a)) i)
        (elem (deref h (a_water_vapour a)) i)
        (elem (deref h (a_ozone a)) i)
        (elem (deref h (a_nitrogen_dioxide a)) i)
        (elem (deref h (a_AOD550 a)) i)
        (elem (deref h (a_Angstrom_exponent a)) i)
        (elem (deref h (a_surface_albedo a)) i).

(** A fresh array of the shape of [zenith_angle], computed index by index. *)
Definition result_array (f : point -> float) (a : args) (h : heap) : ndarray :=
  let z := deref h (a_zenith_angle a) in
  NdArray (shape z) ((fun i => f (point_at a h i)) <$> seq 0 (size z)).

(** [clear_sky_REST2V5]: the heap after the call and the returned list
    [[ghi, dni, dhi]]. *)
Definition clear_sky_REST2V5 (a : args) (h : heap)
    : heap * (ndarray * ndarray * ndarray) :=
  let h := clamp_inputs a h in
  (h, (result_array point_ghi a h, result_array point_dni a h,
       result_array point_dhi a h)).

(** A call on nine freshly built arrays, as [REST2v5] makes it. *)
Definition fresh_args : args :=
  Args 0%nat 1%nat 2%nat 3%nat 4%nat 5%nat 6%nat 7%nat 8%nat.

Definition fresh_heap (zenith_angle Eext pressure water_vapour ozone
    nitrogen_dioxide AOD550 Angstrom_exponent surface_albedo : ndarray) : heap :=
  <[0%nat := zenith_angle]> (<[1%nat := Eext]> (<[2%nat := pressure]>
  (<[3%nat := water_vapour]> (<[4%nat := ozone]> (<[5%nat := nitrogen_dioxide]>
  (<[6%nat := AOD550]> (<[7%nat := Angstrom_exponent]>
  (<[8%nat := surface_albedo]> ∅)))))))).

Definition call_clear_sky (zenith_angle Eext pressure water_vapour ozone
    nitrogen_dioxide AOD550 Angstrom_exponent surface_albedo : ndarray)
    : ndarray * ndarray * ndarray :=
  snd (clear_sky_REST2V5 fresh_args
         (fresh_heap zenith_angle Eext pressure water_vapour ozone
            nitrogen_dioxide AOD550 Angstrom_exponent surface_albedo)).

End ClearSky.

(* ================================================================= *)
(** * The constructor *)

Inductive exn : Type :=
| Exception (msg : string)
| ValueError (msg : string).

(** [np.abs] on an array of floats. *)
Definition np_abs (a : ndarray) : ndarray := amap abs a.

(** [np.maximum]: a NaN operand is returned (NaN propagates). *)
Definition np_maximum (x y : float) : float :=
  if (y <=? x) || is_nan x then x else y.

(** [np.max]: the reduction by [np.maximum]; an empty array has no maximum. *)
Definition np_max (a : ndarray) : exn + float :=
  match data a with
  | [] => inl (ValueError "zero-size array to reduction operation maximum which has no identity")
  | x :: l => inr (fold_left np_maximum l x)
  end.

(** [a.reshape(new_shape)]: the sizes must agree. *)
Definition reshape (new_shape : list nat) (a : ndarray) : exn + ndarray :=
  if (fold_right Nat.mul 1%nat new_shape =? size a)%nat
  then inr (NdArray new_shape (data a))
  else inl (ValueError "cannot reshape array").

(** The state of a [ClearSkyREST2v5] object.  [time] holds one grid of
    time stamps per station. *)
Record ClearSkyREST2v5 : Type := {
  lat : ndarray;
  lon : ndarray;
  elev : ndarray;
  time : list (list Z);
  datadir : string;
  pandas_output : bool
}.

Definition raise {A : Type} (e : exn) : exn + A := inl e.

Definition bind {A B : Type} (m : exn + A) (k : A -> exn + B) : exn + B :=
  match m with
  | inl e => inl e
  | inr x => k x
  end.

Notation "x <-! m ; k" := (bind m (fun x => k))
  (at level 100, m at next level, right associativity).

Definition shape_eqb (s1 s2 : list nat) : bool := bool_decide (s1 = s2).

Definition __init__ (lat lon elev : ndarray) (time : list (list Z))
    (datadir : string) (pandas : bool) : exn + ClearSkyREST2v5 :=
  if negb (shape_eqb (shape lat) (shape lon))
  then raise (Exception "lat and lon not match...")
  else
    m <-! np_max (np_abs lat);
    if 90 <? m
    then raise (Exception "90<= lattitude <=90, reset your latitude")
    else
      m <-! np_max (np_abs lon);
      if 180 <? m
      then raise (Exception "-180<= lontitude <=180, reset your lontitude")
      else
        let station_num := size lat in
        lat' <-! reshape [station_num] lat;
        lon' <-! reshape [station_num] lon;
        elev' <-! reshape [station_num; 1%nat] elev;
        inr {| lat := lat'; lon := lon'; elev := elev'; time := time;
               datadir := datadir; pandas_output := pandas |}.

(* ================================================================= *)
(** * The orchestrator [REST2v5] *)

(** An array of time stamps (for instance [datetime64] values). *)
Record tarray : Type := TArray { tshape : list nat; tdata : list Z }.

(** The list returned by [extract_for_MERRA2], in its order. *)
Record merra2 : Type := Merra2 {
  m_tot_aer_ext : ndarray; m_AOD550 : ndarray; m_Angstrom_exponent : ndarray;
  m_ozone : ndarray; m_surface_albedo : ndarray; m_water_vapour : ndarray;
  m_pressure : ndarray; m_nitrogen_dioxide : ndarray
}.

(** A [pd.DataFrame]: the values row by row, the row index and the column
    names. *)
Record DataFrame : Type := {
  df_values : list (list float);
  df_index : list Z;
  df_columns : list string
}.

(** What [REST2v5] returns: a list of frames; or, without pandas, the three
    transposed arrays (one batch) or three Python lists of per-station
    arrays. *)
Inductive rest2_output : Type :=
| StationData (station_data_list : list DataFrame)
| Batched (ghi dni dhi : ndarray)
| PerStation (ghi dni dhi : list ndarray).

(** [(t != t0).any()] *)
Definition any_differs (t t0 : list Z) : bool :=
  existsb (fun xy => negb (fst xy =? snd xy)%Z) (zip t t0).

(** Lines 281-288: [same_flag] after the loop ([true] is 1). *)
Definition same_flag (time : list (list Z)) : bool :=
  fold_left
    (fun flag t =>
       if bool_decide (length t = length (nth 0 time []))
       then if any_differs t (nth 0 time []) then false else flag
       else false)
    (tail time) true.

(** [self.time.T]: time stamps by (time, station). *)
Definition time_T (time : list (list Z)) : tarray :=
  let n_time := length (nth 0 time []) in
  let n_station := length time in
  TArray [n_time; n_station]
    (concat ((fun t => (fun s => nth t (nth s time []) 0%Z) <$> seq 0 n_station)
             <$> seq 0 n_time)).

(** Rows and columns of a two-dimensional array. *)
Definition nrows (a : ndarray) : nat := nth 0 (shape a) 1%nat.
Definition ncols (a : ndarray) : nat := nth 1 (shape a) 1%nat.

(** [a[:, j]] *)
Definition column (a : ndarray) (j : nat) : list float :=
  (fun t => elem a (t * ncols a + j)%nat) <$> seq 0 (nrows a).

(** [a.T] *)
Definition transpose (a : ndarray) : ndarray :=
  NdArray [ncols a; nrows a] (concat (column a <$> seq 0 (ncols a))).

(** [a[i]] for a one-dimensional [a]: a scalar. *)
Definition item (a : ndarray) (i : nat) : ndarray := NdArray [] [elem a i].

(** [a[i]] for a two-dimensional [a]: row [i]. *)
Definition row (a : ndarray) (i : nat) : ndarray :=
  NdArray [ncols a] (take (ncols a) (drop (i * ncols a) (data a))).

(** [np.hstack] of three columns of one length: rows of three values. *)
Definition hstack3 (g d h : list float) : list (list float) :=
  zip_with (fun x yz => [x; fst yz; snd yz]) g (zip d h).

Definition col_index : list string := ["GHI"; "DNI"; "DIF"]%string.

Section REST2v5.
Context {np : NumPy}.

(** The collaborators. *)
Variable latlon2solarzenith : ndarray -> ndarray -> tarray -> ndarray.
Variable data_eext_builder : tarray -> ndarray.
Variable extract_for_MERRA2 :
  ndarray -> ndarray -> tarray -> ndarray -> string -> merra2.

(** Lines 290-315: every station shares the time grid of the first. *)
Definition REST2v5_homogeneous (self : ClearSkyREST2v5) : rest2_output :=
  let zenith_angle := latlon2solarzenith (lat self) (lon self) (time_T (time self)) in
  let zenith_angle := amap np_deg2rad zenith_angle in
  let Eext := data_eext_builder (time_T (time self)) in
  let m := extract_for_MERRA2 (lat self) (lon self) (time_T (time self))
             (elev self) (datadir self) in
  let '(ghi, dni, dhi) :=
    call_clear_sky zenith_angle Eext (m_pressure m) (m_water_vapour m) (m_ozone m)
      (m_nitrogen_dioxide m) (m_AOD550 m) (m_Angstrom_exponent m) (m_surface_albedo m) in
  if pandas_output self
  then
    StationData
      ((fun index =>
          let row_index := nth index (time self) [] in
          {| df_values := hstack3 (column ghi index) (column dni index) (column dhi index);
             df_index := row_index;
             df_columns := col_index |})
       <$> seq 0 (length (time self)))
  else Batched (transpose ghi) (transpose dni) (transpose dhi).

(** Lines 324-335: the computation for the station [index]. *)
Definition station (self : ClearSkyREST2v5) (index : nat)
    : ndarray * ndarray * ndarray :=
  let time_index := nth index (time self) [] in
  let time_temp := TArray [length time_index; 1%nat] time_index in
  let zenith_angle :=
    latlon2solarzenith (item (lat self) index) (item (lon self) index) time_temp in
  let zenith_angle := amap np_deg2rad zenith_angle in
  let Eext := data_eext_builder time_temp in
  let m := extract_for_MERRA2 (item (lat self) index) (item (lon self) index) time_temp
             (row (elev self) index) (datadir self) in
  call_clear_sky zenith_angle Eext (m_pressure m) (m_water_vapour m) (m_ozone m)
    (m_nitrogen_dioxide m) (m_AOD550 m) (m_Angstrom_exponent m) (m_surface_albedo m).

(** Lines 317-347: one call per station. *)
Definition REST2v5_heterogeneous (self : ClearSkyREST2v5) : rest2_output :=
  let indices := seq 0 (length (time self)) in
  if pandas_output self
  then
    StationData
      ((fun index =>
          let row_index := nth index (time self) [] in
          let '(ghi_i, dni_i, dhi_i) := station self index in
          {| df_values := hstack3 (data ghi_i) (data dni_i) (data dhi_i);
             df_index := row_index;
             df_columns := col_index |})
       <$> indices)
  else
    PerStation ((fun index => fst (fst (station self index))) <$> indices)
               ((fun index => snd (fst (station self index))) <$> indices)
               ((fun index => snd (station self index)) <$> indices).

Definition REST2v5 (self : ClearSkyREST2v5) : rest2_output :=
  if same_flag (time self)
  then REST2v5_homogeneous self
  else REST2v5_heterogeneous self.

End REST2v5.

(* ================================================================= *)
(** * A reference instance of [NumPy]

    An executable implementation of the interface in binary64 arithmetic:
    argument reduction and power series for the elementary functions
    (accurate to a few units in the last place on the arguments the model
    meets, not bit-identical to a C library), and NumPy's formulas for
    complex multiplication, division (Smith) and power.  It serves to
    evaluate the model at concrete inputs. *)

Module RefNumPy.

(** The integer part (floor) of a finite float. *)
Definition floorZ (x : float) : Z :=
  match Prim2SF x with
  | S754_finite s m e => Z.shiftl (if s then Z.neg m else Z.pos m) e
  | _ => 0%Z
  end.

Definition of_Z (z : Z) : float :=
  if (z <? 0)%Z then - of_uint63 (Uint63.of_Z (- z)) else of_uint63 (Uint63.of_Z z).

Definition is_int (x : float) : bool := x =? of_Z (floorZ x).

(** [from; from + step; ...]: [n] terms. *)
Fixpoint arith (n : nat) (from step : float) : list float :=
  match n with
  | O => []
  | S n => from :: arith n (from + step) step
  end.

Definition ln2_hi : float := 0.693147180369123816490.
Definition ln2_lo : float := 1.90821492927058770002e-10.
Definition inv_ln2 : float := 1.4426950408889634.
Definition pio2_hi : float := 1.57079632673412561417.
Definition pio2_lo : float := 6.07710050650619224932e-11.
Definition two_over_pi : float := 0.6366197723675814.

(** [1 + r/1 (1 + r/2 (1 + r/3 ...))] *)
Definition exp_series (r : float) : float :=
  fold_right (fun n acc => 1 + r * acc / n) 1 (arith 20 1 1).

Definition f_exp (x : float) : float :=
  if is_nan x then nan
  else if 709.782712893384 <? x then infinity
  else if x <? -745.2 then 0
  else
    let k := floorZ (x * inv_ln2 + 0.5) in
    let r := (x - of_Z k * ln2_hi) - of_Z k * ln2_lo in
    Z.ldexp (exp_series r) k.

(** [log m = 2 s (1 + s^2/3 + s^4/5 + ...)] with [s = (m - 1) / (m + 1)]. *)
Definition log_series (s : float) : float :=
  2 * s * fold_right (fun n acc => 1 / n + s * s * acc) 0 (arith 14 1 2).

Definition f_log (x : float) : float :=
  if is_nan x then nan
  else if x <? 0 then nan
  else if x =? 0 then neg_infinity
  else if x =? infinity then infinity
  else
    let (m, e) := Z.frexp x in
    let (m, e) := if m <? 0.7071067811865476 then (m * 2, (e - 1)%Z) else (m, e) in
    of_Z e * ln2_hi + (log_series ((m - 1) / (m + 1)) + of_Z e * ln2_lo).

(** [sin r = r (1 - r^2/(2.3) (1 - r^2/(4.5) (1 - ...)))] *)
Definition sin_series (r : float) : float :=
  r * fold_right (fun n acc => 1 - r * r * acc / n) 1
        ((fun k => 2 * k * (2 * k + 1)) <$> arith 11 1 1).

(** [cos r = 1 - r^2/(1.2) (1 - r^2/(3.4) (1 - ...))] *)
Definition cos_series (r : float) : float :=
  fold_right (fun n acc => 1 - r * r * acc / n) 1
    ((fun k => (2 * k - 1) * (2 * k)) <$> arith 11 1 1).

(** The quadrant of [x] and the remainder in [[-pi/4, pi/4]]. *)
Definition reduce_pio2 (x : float) : Z * float :=
  let k := floorZ (x * two_over_pi + 0.5) in
  ((k mod 4)%Z, (x - of_Z k * pio2_hi) - of_Z k * pio2_lo).

Definition f_cos (x : float) : float :=
  if is_nan x || (abs x =? infinity) then nan
  else
    let (q, r) := reduce_pio2 x in
    if (q =? 0)%Z then cos_series r
    else if (q =? 1)%Z then - sin_series r
    else if (q =? 2)%Z then - cos_series r
    else sin_series r.

Definition f_sin (x : float) : float :=
  if is_nan x || (abs x =? infinity) then nan
  else
    let (q, r) := reduce_pio2 x in
    if (q =? 0)%Z then sin_series r
    else if (q =? 1)%Z then cos_series r
    else if (q =? 2)%Z then - sin_series r
    else - cos_series r.

Definition atan_series (s : float) : float :=
  s * fold_right (fun n acc => 1 / n - s * s * acc) 0 (arith 15 1 2).

(** Halving of the angle: [atan x = 2 atan (x / (1 + sqrt (1 + x^2)))]. *)
Definition atan_half (x : float) : float := x / (1 + PrimFloat.sqrt (1 + x * x)).

Definition f_atan (x : float) : float :=
  if is_nan x then nan
  else
    let a := abs x in
    let r := if 1 <? a
             then 2 * pio2_hi / 2 + (pio2_lo - 4 * atan_series (atan_half (atan_half (1 / a))))
             else 4 * atan_series (atan_half (atan_half a)) in
    if x <? 0 then - r else r.

Definition is_negative (y : float) : bool := (y <? 0) || ((y =? 0) && (1 / y <? 0)).

Definition f_atan2 (y x : float) : float :=
  if is_nan x || is_nan y then nan
  else if 0 <? x then f_atan (y / x)
  else if x <? 0
       then if is_negative y then f_atan (y / x) - np_pi else f_atan (y / x) + np_pi
  else if 0 <? y then np_pi / 2
  else if y <? 0 then - (np_pi / 2)
  else 0.

Definition f_pow (x y : float) : float :=
  if y =? 0 then 1
  else if x =? 1 then 1
  else if is_nan x || is_nan y then nan
  else if x =? 0 then (if 0 <? y then 0 else infinity)
  else if x <? 0
       then if is_int y
            then if Z.odd (floorZ y) then - f_exp (y * f_log (- x)) else f_exp (y * f_log (- x))
            else nan
  else f_exp (y * f_log x).

Definition f_hypot (x y : float) : float :=
  PrimFloat.sqrt (x * x + y * y).

Definition f_cmul (a b : complex) : complex :=
  (fst a * fst b - snd a * snd b, fst a * snd b + snd a * fst b).

Definition f_cdiv (a b : complex) : complex :=
  let '(ar, ai) := a in
  let '(br, bi) := b in
  if abs bi <=? abs br
  then if (br =? 0) && (bi =? 0)
       then (ar / abs br, ai / abs br)
       else let rat := bi / br in
            let scl := 1 / (br + bi * rat) in
            ((ar + ai * rat) * scl, (ai - ar * rat) * scl)
  else let rat := br / bi in
       let scl := 1 / (bi + br * rat) in
       ((ar * rat + ai) * scl, (ai * rat - ar) * scl).

Definition f_cpow (a b : complex) : complex :=
  let '(ar, ai) := a in
  let '(br, bi) := b in
  if (br =? 0) && (bi =? 0) then (1, 0)
  else if (ar =? 0) && (ai =? 0)
       then if (0 <? br) && (bi =? 0) then (0, 0) else (nan, nan)
  else if (bi =? 0) && is_int br && (abs br <? 100)
       then let n := floorZ br in
            let p := Nat.iter (Z.to_nat (Z.abs n)) (f_cmul a) (1, 0) in
            if (n <? 0)%Z then f_cdiv (1, 0) p else p
  else
    let '(er, ei) := f_cmul b (f_log (f_hypot ar ai), f_atan2 ai ar) in
    (f_exp er * f_cos ei, f_exp er * f_sin ei).

Definition ref : NumPy := {|
  np_cos := f_cos;
  np_exp := f_exp;
  np_log := f_log;
  np_power := f_pow;
  np_rad2deg := fun x => x * (180 / np_pi);
  np_deg2rad := fun x => x * (np_pi / 180);
  c_add := fun a b => (fst a + fst b, snd a + snd b);
  c_sub := fun a b => (fst a - fst b, snd a - snd b);
  c_mul := f_cmul;
  c_div := f_cdiv;
  c_power := f_cpow;
  c_abs := fun a => f_hypot (fst a) (snd a)
|}.

End RefNumPy.

(* ================================================================= *)
(** * Concrete inputs

    One station and one time stamp: arrays of shape (1,), at the standard
    atmosphere of the boundary scenario (pressure 1013.25 mb, water vapour
    1.42, ozone 0.34, nitrogen dioxide 0.0002, AOD550 0.1, albedo 0.2). *)

Definition one (x : float) : ndarray := NdArray [1%nat] [x].

Definition scenario (zenith_angle Eext Angstrom_exponent : float) : heap :=
  fresh_heap (one zenith_angle) (one Eext) (one 1013.25) (one 1.42) (one 0.34)
    (one 0.0002) (one 0.1) (one Angstrom_exponent) (one 0.2).


(** A zenith angle of 150 degrees, in radians: the sun 60 degrees below
    the horizon. *)
Definition night : float := 2.6179938779914944.


(** Equal up to a relative 1e-12. *)
Definition close (x y : float) : bool := abs (x - y) <=? 1e-12 * abs y.

(** Stand-ins for the collaborators of [REST2v5]: the value at (time,
    station) is a function of the coordinates of that station and of that
    time stamp, whatever the shape of the query. *)
Definition demo_zenith (lat lon : ndarray) (t : tarray) : ndarray :=
  NdArray (tshape t)
    (imap (fun i tm => abs (elem lat (i mod size lat)) + RefNumPy.of_Z tm) (tdata t)).

Definition demo_eext (t : tarray) : ndarray :=
  NdArray (tshape t) ((fun _ => 1361) <$> tdata t).

Definition demo_merra2 (lat lon : ndarray) (t : tarray) (elev : ndarray)
    (datadir : string) : merra2 :=
  let const := fun x : float => NdArray (tshape t) ((fun _ => x) <$> tdata t) in
  Merra2 (const 0.1) (const 0.1)
    (NdArray (tshape t)
       (imap (fun i _ => 1.3 + abs (elem lon (i mod size lon)) / 10) (tdata t)))
    (const 0.34) (const 0.2) (const 1.42)
    (NdArray (tshape t)
       (imap (fun i _ => 1013.25 - elem elev (i mod size elev) / 10) (tdata t)))
    (const 0.0002).

Definition demo_self (pandas : bool) : ClearSkyREST2v5 := {|
  lat := NdArray [2%nat] [10; 40];
  lon := NdArray [2%nat] [20; 30];
  elev := NdArray [2%nat; 1%nat] [0; 500];
  time := [[0; 30]%Z; [0; 30]%Z];
  datadir := "MERRA2";
  pandas_output := pandas
|}.

(* ================================================================= *)
(** * Vocabulary of the statements *)

(** The six atmospheric arguments that lines 60-71 assign to. *)
Definition atmosphere (a : args) : list loc :=
  [a_Angstrom_exponent a; a_pressure a; a_water_vapour a; a_ozone a;
   a_nitrogen_dioxide a; a_surface_albedo a].

(** The nine arguments; a caller passes nine distinct array objects. *)
Definition args_list (a : args) : list loc :=
  a_zenith_angle a :: a_Eext a :: a_AOD550 a :: atmosphere a.

(** The inputs at one index with the six atmospheric values clamped. *)
Definition clamp_point (p : point) : point :=
  Point (p_zenith_angle p) (p_Eext p)
        (clamp_pressure (p_pressure p))
        (clamp_water_vapour (p_water_vapour p))
        (clamp_ozone (p_ozone p))
        (clamp_nitrogen_dioxide (p_nitrogen_dioxide p))
        (p_AOD550 p)
        (clamp_Angstrom_exponent (p_Angstrom_exponent p))
        (clamp_surface_albedo (p_surface_albedo p)).

(** Every element of [a] lies in [[lo, hi]]. *)
Definition all_in_range (lo hi : float) (a : ndarray) : Prop :=
  Forall (fun x => in_range lo hi x = true) (data a).

(** Every element of [a] lies in [[lo, hi]] or is NaN. *)
Definition within_or_nan (lo hi : float) (a : ndarray) : Prop :=
  Forall (fun x => is_nan x || in_range lo hi x = true) (data a).

(** Every atmospheric array of the call is within its documented bound. *)
Definition within_bounds (a : args) (h : heap) : Prop :=
  all_in_range 0 2.5 (deref h (a_Angstrom_exponent a)) /\
  all_in_range 300 1100 (deref h (a_pressure a)) /\
  all_in_range 0 10 (deref h (a_water_vapour a)) /\
  all_in_range 0 0.6 (deref h (a_ozone a)) /\
  all_in_range 0 0.03 (deref h (a_nitrogen_dioxide a)) /\
  all_in_range 0 1 (deref h (a_surface_albedo a)).

(** A float that is a number and not negative; [infinity] is one. *)
Definition nonneg_number (x : float) : bool := negb (is_nan x) && negb (x <? 0).

Definition is_error {A : Type} (r : exn + A) : bool :=
  match r with
  | inl _ => true
  | inr _ => false
  end.

(** The data of an array fill its shape. *)
Definition well_formed (a : ndarray) : Prop :=
  size a = fold_right Nat.mul 1%nat (shape a).

Definition no_nan (a : ndarray) : Prop :=
  Forall (fun x => is_nan x = false) (data a).

(** The rule of the specification for a failing construction: the shapes
    differ, or some [|lat| > 90], or some [|lon| > 180]. *)
Definition spec_rejects (lat lon : ndarray) : bool :=
  negb (shape_eqb (shape lat) (shape lon))
  || existsb (fun x => 90 <? abs x) (data lat)
  || existsb (fun x => 180 <? abs x) (data lon).

(** A batched array of shape (time, station) and the per-station arrays of
    shape (time, 1) hold the same values. *)
Definition agree (n_time n_station : nat) (batch : ndarray)
    (per_station : nat -> ndarray) : Prop :=
  shape batch = [n_time; n_station] /\
  size batch = (n_time * n_station)%nat /\
  forall s, (s < n_station)%nat ->
    shape (per_station s) = [n_time; 1%nat] /\
    data (per_station s) = column batch s.

(** The two paths of [REST2v5] return the same value for every station and
    time: the same list of frames; or, without pandas, batched arrays that
    hold, station after station, the data of the per-station arrays. *)
Definition same_values (batched per_station : rest2_output) : Prop :=
  match batched, per_station with
  | StationData l1, StationData l2 => l1 = l2
  | Batched g d h, PerStation gl dl hl =>
      data g = concat (data <$> gl) /\
      data d = concat (data <$> dl) /\
      data h = concat (data <$> hl)
  | _, _ => False
  end.

(** Every number that a result of [REST2v5] holds: the values of the
    frames, or the elements of the arrays. *)
Definition output_values (o : rest2_output) : list float :=
  match o with
  | StationData l => concat (concat (df_values <$> l))
  | Batched g d h => data g ++ data d ++ data h
  | PerStation gl dl hl =>
      concat (data <$> gl) ++ concat (data <$> dl) ++ concat (data <$> hl)
  end.

(** The inputs at one index with another surface albedo. *)
Definition with_surface_albedo (p : point) (rg : float) : point :=
  Point (p_zenith_angle p) (p_Eext p) (p_pressure p) (p_water_vapour p) (p_ozone p)
        (p_nitrogen_dioxide p) (p_AOD550 p) (p_Angstrom_exponent p) rg.

Section Readings.
Context {np : NumPy}.


(** The reading of the specification for a real-domain computation of an
    air mass: the magnitude of a real power [x^p] taken as [|x|^p]. *)
Definition real_domain_air_mass (a b c d zenith_angle : float) : float :=
  let deg := zenith_angle * 180 / np_pi in
  np_power
    (abs (np_cos zenith_angle + a * np_power (abs deg) b / np_power (abs (c - deg)) d))
    (-1).

(** The reading of the specification for DHI below the horizon ("DHI is
    unaffected by this rule"): the diffuse sum with the quality-control
    floor alone. *)
Definition dhi_floor_only (p : point) : float :=
  let '(i1, i2) := band_irradiances p in
  quality_control (Edp i1 + Edd i1 + Edp i2 + Edd i2).

(** The kernel [f] at index [i] of nine arrays, on the clamped values. *)
Definition kernel_at (f : point -> float)
    (z E p w o n aod al rg : ndarray) (i : nat) : float :=
  f (clamp_point (Point (elem z i) (elem E i) (elem p i) (elem w i) (elem o i)
                        (elem n i) (elem aod i) (elem al i) (elem rg i))).

Variable latlon2solarzenith : ndarray -> ndarray -> tarray -> ndarray.
Variable data_eext_builder : tarray -> ndarray.
Variable extract_for_MERRA2 :
  ndarray -> ndarray -> tarray -> ndarray -> string -> merra2.

(** "The same collaborator outputs for equivalent queries": what the
    collaborators return for the whole grid and what they return station
    by station agree, array by array. *)
Definition collaborators_agree (self : ClearSkyREST2v5) : Prop :=
  let n_time := length (nth 0 (time self) []) in
  let n_station := length (time self) in
  let time_temp := fun s =>
    TArray [length (nth s (time self) []); 1%nat] (nth s (time self) []) in
  let batch :=
    extract_for_MERRA2 (lat self) (lon self) (time_T (time self))
      (elev self) (datadir self) in
  let per_station := fun s =>
    extract_for_MERRA2 (item (lat self) s) (item (lon self) s) (time_temp s)
      (row (elev self) s) (datadir self) in
  agree n_time n_station
    (latlon2solarzenith (lat self) (lon self) (time_T (time self)))
    (fun s => latlon2solarzenith (item (lat self) s) (item (lon self) s) (time_temp s)) /\
  agree n_time n_station
    (data_eext_builder (time_T (time self)))
    (fun s => data_eext_builder (time_temp s)) /\
  agree n_time n_station (m_pressure batch) (fun s => m_pressure (per_station s)) /\
  agree n_time n_station (m_water_vapour batch) (fun s => m_water_vapour (per_station s)) /\
  agree n_time n_station (m_ozone batch) (fun s => m_ozone (per_station s)) /\
  agree n_time n_station (m_nitrogen_dioxide batch)
    (fun s => m_nitrogen_dioxide (per_station s)) /\
  agree n_time n_station (m_AOD550 batch) (fun s => m_AOD550 (per_station s)) /\
  agree n_time n_station (m_Angstrom_exponent batch)
    (fun s => m_Angstrom_exponent (per_station s)) /\
  agree n_time n_station (m_surface_albedo batch)
    (fun s => m_surface_albedo (per_station s)).

End Readings.

(* ================================================================= *)
(** * Facts about binary64 comparisons *)

Lemma SFcompare_swap x y : SFcompare y x = option_map CompOpp (SFcompare x y).
Proof.
  destruct x as [sx|sx| |sx mx ex], y as [sy|sy| |sy my ey]; simpl;
    try reflexivity; try (destruct sx; reflexivity); try (destruct sy; reflexivity);
    try (destruct sx, sy; reflexivity).
  destruct sx, sy; simpl; try reflexivity.
  - rewrite (Z.compare_antisym ey ex).
    destruct (ey ?= ex)%Z; simpl; try reflexivity.
    do 2 f_equal. symmetry. apply (Pos.compare_cont_antisym mx my Eq).
  - rewrite (Z.compare_antisym ey ex).
    destruct (ey ?= ex)%Z; simpl; try reflexivity.
    f_equal. symmetry. apply (Pos.compare_cont_antisym mx my Eq).
Qed.

Lemma SFcompare_refl x :
  SFcompare x x = match x with S754_nan => None | _ => Some Eq end.
Proof.
  destruct x as [s|s| |s m e]; simpl; try reflexivity.
  - now destruct s.
  - rewrite Z.compare_refl, Pos.compare_cont_refl. now destruct s.
Qed.

Lemma SFcompare_None x y : SFcompare x y = None -> x = S754_nan \/ y = S754_nan.
Proof. destruct x, y; simpl; intros; try discriminate; auto. Qed.

Lemma is_nan_spec x :
  is_nan x = match Prim2SF x with S754_nan => true | _ => false end.
Proof.
  unfold is_nan. rewrite FloatAxioms.eqb_spec. unfold SFeqb.
  rewrite SFcompare_refl. now destruct (Prim2SF x).
Qed.

(** Floats that are not NaN are totally ordered. *)
Lemma ltb_false_leb x y :
  is_nan x = false -> is_nan y = false -> (y <? x) = false -> (x <=? y) = true.
Proof.
  rewrite !is_nan_spec, FloatAxioms.ltb_spec, FloatAxioms.leb_spec.
  unfold SFltb, SFleb.
  rewrite (SFcompare_swap (Prim2SF x) (Prim2SF y)).
  destruct (SFcompare (Prim2SF x) (Prim2SF y)) as [[]|] eqn:E; simpl; try done.
  apply SFcompare_None in E as [-> | ->]; done.
Qed.

Lemma leb_ltb_false x y : (x <=? y) = true -> (y <? x) = false.
Proof.
  rewrite FloatAxioms.ltb_spec, FloatAxioms.leb_spec. unfold SFltb, SFleb.
  rewrite (SFcompare_swap (Prim2SF x) (Prim2SF y)).
  destruct (SFcompare (Prim2SF x) (Prim2SF y)) as [[]|]; simpl; done.
Qed.

Lemma ltb_not_nan x y : (x <? y) = true -> is_nan x = false /\ is_nan y = false.
Proof.
  rewrite !is_nan_spec, FloatAxioms.ltb_spec. unfold SFltb.
  destruct (Prim2SF x), (Prim2SF y); simpl; done.
Qed.

Lemma leb_not_nan x y : (x <=? y) = true -> is_nan x = false /\ is_nan y = false.
Proof.
  rewrite !is_nan_spec, FloatAxioms.leb_spec. unfold SFleb.
  destruct (Prim2SF x), (Prim2SF y); simpl; done.
Qed.

Lemma ltb_irrefl x : (x <? x) = false.
Proof.
  rewrite FloatAxioms.ltb_spec. unfold SFltb. rewrite SFcompare_refl.
  now destruct (Prim2SF x).
Qed.

Lemma ltb_leb x y : (x <? y) = true -> (x <=? y) = true.
Proof.
  rewrite FloatAxioms.ltb_spec, FloatAxioms.leb_spec. unfold SFltb, SFleb.
  destruct (SFcompare (Prim2SF x) (Prim2SF y)) as [[]|]; simpl; done.
Qed.

Lemma leb_refl_of_leb x y : (x <=? y) = true -> (x <=? x) = true /\ (y <=? y) = true.
Proof.
  intros H. destruct (leb_not_nan _ _ H) as [Hx Hy].
  split; apply ltb_false_leb; auto using ltb_irrefl.
Qed.

(* ================================================================= *)
(** * Clamping one value *)

Lemma clamp_idempotent lo hi x :
  (lo <=? hi) = true -> clamp lo hi (clamp lo hi x) = clamp lo hi x.
Proof.
  intros Hb. pose proof (leb_ltb_false _ _ Hb) as Hhl.
  unfold clamp, set_lt, set_gt.
  destruct (hi <? x) eqn:E1.
  - rewrite Hhl, ltb_irrefl, Hhl. reflexivity.
  - destruct (x <? lo) eqn:E2.
    + rewrite Hhl, ltb_irrefl. reflexivity.
    + rewrite E1, E2. reflexivity.
Qed.

Lemma clamp_noop lo hi x : in_range lo hi x = true -> clamp lo hi x = x.
Proof.
  unfold in_range. intros [H1 H2]%andb_prop.
  unfold clamp, set_lt, set_gt.
  rewrite (leb_ltb_false _ _ H2), (leb_ltb_false _ _ H1). reflexivity.
Qed.

Lemma clamp_in_range lo hi x :
  (lo <=? hi) = true -> is_nan x = false -> in_range lo hi (clamp lo hi x) = true.
Proof.
  intros Hb Hx. destruct (leb_refl_of_leb _ _ Hb) as [Hl Hh].
  destruct (leb_not_nan _ _ Hb) as [Nl Nh].
  unfold in_range, clamp, set_lt, set_gt.
  destruct (hi <? x) eqn:E1.
  - rewrite (leb_ltb_false _ _ Hb), Hb, Hh. reflexivity.
  - destruct (x <? lo) eqn:E2.
    + rewrite Hl, Hb. reflexivity.
    + rewrite (ltb_false_leb lo x), (ltb_false_leb x hi); auto.
Qed.

(** A NaN passes through a clamp. *)
Lemma clamp_nan lo hi x : is_nan x = true -> clamp lo hi x = x.
Proof.
  intros Hx. unfold clamp, set_lt, set_gt.
  destruct (hi <? x) eqn:E1.
  - apply ltb_not_nan in E1 as [_ E1]. congruence.
  - destruct (x <? lo) eqn:E2; [|reflexivity].
    apply ltb_not_nan in E2 as [E2 _]. congruence.
Qed.

(* ================================================================= *)
(** * Arrays in the heap *)

Lemma amap_amap f g a : amap f (amap g a) = amap (f ∘ g) a.
Proof. unfold amap. simpl. f_equal. by rewrite <- list_fmap_compose. Qed.

Lemma amap_ext f g a : (forall x, f x = g x) -> amap f a = amap g a.
Proof. intros E. unfold amap. f_equal. apply list_fmap_ext. auto. Qed.

Lemma NoDup6 {A} (x1 x2 x3 x4 x5 x6 : A) :
  NoDup [x1; x2; x3; x4; x5; x6] ->
  x1 ≠ x2 /\ x1 ≠ x3 /\ x1 ≠ x4 /\ x1 ≠ x5 /\ x1 ≠ x6 /\ x2 ≠ x3 /\ x2 ≠ x4
  /\ x2 ≠ x5 /\ x2 ≠ x6 /\ x3 ≠ x4 /\ x3 ≠ x5 /\ x3 ≠ x6 /\ x4 ≠ x5 /\ x4 ≠ x6
  /\ x5 ≠ x6.
Proof. rewrite !NoDup_cons, !not_elem_of_cons. intuition congruence. Qed.

(** An array that is no atmospheric argument is left alone. *)
Lemma lookup_clamp_inputs_other a (h : heap) l :
  l ∉ atmosphere a -> clamp_inputs a h !! l = h !! l.
Proof.
  unfold atmosphere. rewrite !not_elem_of_cons. intros (?&?&?&?&?&?&_).
  unfold clamp_inputs. rewrite !lookup_alter_ne by done. done.
Qed.

(** Each atmospheric array, when the six are distinct objects, ends up
    clamped to its own bounds. *)
Lemma lookup_clamp_inputs a (h : heap) :
  NoDup (atmosphere a) ->
  clamp_inputs a h !! a_Angstrom_exponent a
    = amap clamp_Angstrom_exponent <$> h !! a_Angstrom_exponent a /\
  clamp_inputs a h !! a_pressure a = amap clamp_pressure <$> h !! a_pressure a /\
  clamp_inputs a h !! a_water_vapour a
    = amap clamp_water_vapour <$> h !! a_water_vapour a /\
  clamp_inputs a h !! a_ozone a = amap clamp_ozone <$> h !! a_ozone a /\
  clamp_inputs a h !! a_nitrogen_dioxide a
    = amap clamp_nitrogen_dioxide <$> h !! a_nitrogen_dioxide a /\
  clamp_inputs a h !! a_surface_albedo a
    = amap clamp_surface_albedo <$> h !! a_surface_albedo a.
Proof.
  intros ND. apply NoDup6 in ND.
  destruct ND as (?&?&?&?&?&?&?&?&?&?&?&?&?&?&?).
  unfold clamp_inputs.
  repeat split.
  all: repeat first [ rewrite lookup_alter_ne by done | rewrite lookup_alter_eq ].
  all: rewrite <- option_fmap_compose; apply option_fmap_ext; intros x; apply amap_amap.
Qed.
Lemma bounds_ordered :
  (0 <=? 2.5) = true /\ (300 <=? 1100) = true /\ (0 <=? 10) = true /\
  (0 <=? 0.6) = true /\ (0 <=? 0.03) = true /\ (0 <=? 1) = true /\ (0 <=? 1.1) = true.
Proof. repeat split; vm_compute; reflexivity. Qed.

Lemma amap_clamp_idem lo hi a :
  (lo <=? hi) = true -> amap (clamp lo hi) (amap (clamp lo hi) a) = amap (clamp lo hi) a.
Proof.
  intros Hb. rewrite amap_amap. apply amap_ext. intros x. apply clamp_idempotent, Hb.
Qed.

Lemma amap_id f a : Forall (fun x => f x = x) (data a) -> amap f a = a.
Proof.
  intros HF. destruct a as [s d]. unfold amap. simpl in *. f_equal.
  induction HF; simpl; [done|]. by f_equal.
Qed.

Lemma clamp_inputs_idempotent a (h : heap) :
  NoDup (atmosphere a) -> clamp_inputs a (clamp_inputs a h) = clamp_inputs a h.
Proof.
  intros ND. destruct bounds_ordered as (B1&B2&B3&B4&B5&B6&_).
  apply map_eq. intros l.
  destruct (decide (l ∈ atmosphere a)) as [Hin|Hout].
  - pose proof (lookup_clamp_inputs a h ND) as (E1&E2&E3&E4&E5&E6).
    pose proof (lookup_clamp_inputs a (clamp_inputs a h) ND) as (F1&F2&F3&F4&F5&F6).
    unfold atmosphere in Hin. rewrite !elem_of_cons in Hin.
    destruct Hin as [->|[->|[->|[->|[->|[->|Hin]]]]]]; [..|by apply elem_of_nil in Hin].
    all: first [rewrite F1, E1|rewrite F2, E2|rewrite F3, E3|rewrite F4, E4|rewrite F5, E5|rewrite F6, E6].
    all: rewrite <- option_fmap_compose; apply option_fmap_ext; intros x; by apply amap_clamp_idem.
  - by rewrite !lookup_clamp_inputs_other.
Qed.

Lemma alter_amap_id f l (h : heap) :
  Forall (fun x => f x = x) (data (deref h l)) -> alter (amap f) l h = h.
Proof.
  intros HF. apply map_eq. intros l'. rewrite lookup_alter.
  case_decide; [subst|done]. unfold deref in HF.
  destruct (h !! l') as [a|]; simpl in *; [|done]. f_equal. by apply amap_id.
Qed.

Lemma in_range_set_gt lo hi x : in_range lo hi x = true -> set_gt hi x = x.
Proof.
  unfold in_range, set_gt. intros [_ H]%andb_prop. by rewrite (leb_ltb_false _ _ H).
Qed.

Lemma in_range_set_lt lo hi x : in_range lo hi x = true -> set_lt lo x = x.
Proof.
  unfold in_range, set_lt. intros [H _]%andb_prop. by rewrite (leb_ltb_false _ _ H).
Qed.

Lemma clamp_step_noop lo hi l (h : heap) :
  all_in_range lo hi (deref h l) ->
  alter (amap (set_lt lo)) l (alter (amap (set_gt hi)) l h) = h.
Proof.
  intros HF.
  rewrite (alter_amap_id (set_gt hi) l h).
  - apply alter_amap_id. eapply Forall_impl; [exact HF|]. intros x. apply in_range_set_lt.
  - eapply Forall_impl; [exact HF|]. intros x. apply in_range_set_gt.
Qed.

Lemma clamp_inputs_noop a (h : heap) : within_bounds a h -> clamp_inputs a h = h.
Proof.
  intros (H1&H2&H3&H4&H5&H6). unfold clamp_inputs.
  rewrite (clamp_step_noop 0 2.5) by done.
  rewrite (clamp_step_noop 300 1100) by done.
  rewrite (clamp_step_noop 0 10) by done.
  rewrite (clamp_step_noop 0 0.6) by done.
  rewrite (clamp_step_noop 0 0.03) by done.
  by rewrite (clamp_step_noop 0 1).
Qed.


(* ================================================================= *)
(** * The call [clear_sky_REST2V5] *)

Lemma elem_amap f a i : f nan = nan -> elem (amap f a) i = f (elem a i).
Proof.
  intros E. unfold elem, amap. simpl. rewrite !nth_lookup, list_lookup_fmap.
  by destruct (data a !! i).
Qed.

Lemma deref_fmap f (h h' : heap) l :
  h' !! l = amap f <$> h !! l -> deref h' l = amap f (deref h l).
Proof. unfold deref. intros ->. by destruct (h !! l). Qed.

Lemma deref_same (h h' : heap) l : h' !! l = h !! l -> deref h' l = deref h l.
Proof. unfold deref. by intros ->. Qed.

Lemma elem_result (g : nat -> float) n i :
  (i < n)%nat -> nth i (g <$> seq 0 n) nan = g i.
Proof.
  intros Hi. rewrite nth_lookup, list_lookup_fmap, lookup_seq_lt by done. done.
Qed.

Lemma args_list_distinct a :
  NoDup (args_list a) ->
  (a_zenith_angle a ∉ atmosphere a) /\ (a_Eext a ∉ atmosphere a) /\
  (a_AOD550 a ∉ atmosphere a) /\ NoDup (atmosphere a).
Proof.
  unfold args_list.
  intros (Hz & (HE & (Ha & ND)%NoDup_cons)%NoDup_cons)%NoDup_cons.
  apply not_elem_of_cons in Hz as (_ & Hz). apply not_elem_of_cons in Hz as (_ & Hz).
  apply not_elem_of_cons in HE as (_ & HE).
  auto.
Qed.

Section ClearSkyFacts.
Context {np : NumPy}.

Lemma point_at_clamp_inputs a (h : heap) i :
  NoDup (args_list a) ->
  point_at a (clamp_inputs a h) i = clamp_point (point_at a h i).
Proof.
  intros (Hz' & HE' & Ha & ND)%args_list_distinct.
  pose proof (lookup_clamp_inputs a h ND) as (E1&E2&E3&E4&E5&E6).
  unfold point_at, clamp_point. simpl.
  rewrite (deref_same _ _ _ (lookup_clamp_inputs_other a h _ Hz')).
  rewrite (deref_same _ _ _ (lookup_clamp_inputs_other a h _ HE')).
  rewrite (deref_same _ _ _ (lookup_clamp_inputs_other a h _ Ha)).
  rewrite (deref_fmap _ _ _ _ E1), (deref_fmap _ _ _ _ E2), (deref_fmap _ _ _ _ E3),
    (deref_fmap _ _ _ _ E4), (deref_fmap _ _ _ _ E5), (deref_fmap _ _ _ _ E6).
  rewrite !elem_amap by reflexivity. reflexivity.
Qed.

Lemma result_array_clamp_inputs f a (h : heap) :
  NoDup (args_list a) ->
  result_array f a (clamp_inputs a h) =
    NdArray (shape (deref h (a_zenith_angle a)))
      ((fun i => f (clamp_point (point_at a h i)))
       <$> seq 0 (size (deref h (a_zenith_angle a)))).
Proof.
  intros ND. unfold result_array.
  destruct (args_list_distinct a ND) as (Hz & _).
  rewrite (deref_same _ _ _ (lookup_clamp_inputs_other a h _ Hz)).
  f_equal. apply list_fmap_ext. intros _ i _. by rewrite point_at_clamp_inputs.
Qed.

Lemma within_or_nan_clamp lo hi a :
  (lo <=? hi) = true -> within_or_nan lo hi (amap (clamp lo hi) a).
Proof.
  intros Hb. unfold within_or_nan, amap. simpl. apply Forall_fmap, Forall_forall.
  intros x _. simpl. destruct (is_nan x) eqn:E.
  - rewrite clamp_nan, E by done. done.
  - rewrite clamp_in_range by done. apply orb_true_r.
Qed.

End ClearSkyFacts.

(* ================================================================= *)
(** * Quality control and the night rule on one element *)

Lemma quality_control_eq x :
  quality_control x = if (x <? 0) || is_nan x then 0 else x.
Proof.
  unfold quality_control, set_nan_zero, set_negative_nan.
  destruct (x <? 0) eqn:E; [reflexivity|]. simpl. reflexivity.
Qed.

Lemma quality_control_nonneg x : nonneg_number (quality_control x) = true.
Proof.
  rewrite quality_control_eq. unfold nonneg_number.
  destruct (x <? 0) eqn:E1; [reflexivity|].
  destruct (is_nan x) eqn:E2; [reflexivity|].
  simpl. rewrite E1, E2. reflexivity.
Qed.

Section KernelFacts.
Context {np : NumPy}.

(** Below the horizon the three masked assignments leave zeros, and
    [ghi = Ebh + dhi] is [0 + 0]. *)
Lemma night_totals p :
  below_horizon (p_zenith_angle p) = true -> point_totals p = Totals 0 0 0 0.
Proof.
  intros H. unfold point_totals. destruct (band_irradiances p) as [i1 i2].
  unfold band_totals, set_night. rewrite H. reflexivity.
Qed.

Lemma elem_result_array f a (h : heap) i :
  (i < size (deref h (a_zenith_angle a)))%nat ->
  elem (result_array f a h) i = f (point_at a h i).
Proof. intros Hi. unfold elem, result_array. simpl. by apply elem_result. Qed.

Lemma Forall_result_array (P : float -> Prop) f a (h : heap) :
  (forall p, P (f p)) -> Forall P (data (result_array f a h)).
Proof.
  intros HP. unfold result_array. simpl. apply Forall_fmap, Forall_forall.
  intros i _. apply HP.
Qed.

(** ** The claims about [clear_sky_REST2V5] *)

(** C1 (amended).  At every index where [np.rad2deg(zenith_angle) > 90]
    (the zenith angles as lines 243-248 read them, after lines 60-71), the
    direct-horizontal irradiance [Ebh] is zero and the returned DNI, DHI
    and GHI are zero: line 248 applies the below-horizon rule to DHI as
    well. *)
Theorem below_horizon_outputs_zero a (h : heap) i :
  (i < size (deref (clamp_inputs a h) (a_zenith_angle a)))%nat ->
  below_horizon (elem (deref (clamp_inputs a h) (a_zenith_angle a)) i) = true ->
  Ebh (point_totals (point_at a (clamp_inputs a h) i)) = 0 /\
  elem (snd (fst (snd (clear_sky_REST2V5 a h)))) i = 0 /\
  elem (snd (snd (clear_sky_REST2V5 a h))) i = 0 /\
  elem (fst (fst (snd (clear_sky_REST2V5 a h)))) i = 0.
Proof.
  intros Hi Hn. unfold clear_sky_REST2V5. cbn [fst snd].
  rewrite !elem_result_array by done.
  unfold point_dni, point_dhi, point_ghi.
  rewrite (night_totals (point_at a (clamp_inputs a h) i)) by exact Hn.
  cbn [Ebh raw_dni raw_dhi raw_ghi]. repeat split; reflexivity.
Qed.


(** C4.  Each of GHI, DNI, DHI is the quality control of its own value
    before quality control ([raw_ghi], [raw_dni], [raw_dhi]) and of nothing
    else; quality control replaces a negative value (and a NaN) by zero and
    keeps every other value; the call is a total function, it raises
    nothing. *)
Theorem quality_control_each_output a (h : heap) :
  snd (clear_sky_REST2V5 a h) =
    (result_array (fun p => quality_control (raw_ghi (point_totals p)))
       a (clamp_inputs a h),
     result_array (fun p => quality_control (raw_dni (point_totals p)))
       a (clamp_inputs a h),
     result_array (fun p => quality_control (raw_dhi (point_totals p)))
       a (clamp_inputs a h)) /\
  (forall x, quality_control x = if (x <? 0) || is_nan x then 0 else x).
Proof.
  split.
  - reflexivity.
  - apply quality_control_eq.
Qed.

(** C5.  For nine distinct argument objects: after lines 60-71 every
    element of each atmospheric array is within its documented bound (a
    NaN stays a NaN), and the returned arrays are computed from the clamped
    values alone: element [i] is the kernel applied to [clamp_point] of
    the inputs at [i]. *)
Theorem clamped_values_flow a (h : heap) :
  NoDup (args_list a) ->
  (within_or_nan 0 2.5 (deref (fst (clear_sky_REST2V5 a h)) (a_Angstrom_exponent a)) /\
   within_or_nan 300 1100 (deref (fst (clear_sky_REST2V5 a h)) (a_pressure a)) /\
   within_or_nan 0 10 (deref (fst (clear_sky_REST2V5 a h)) (a_water_vapour a)) /\
   within_or_nan 0 0.6 (deref (fst (clear_sky_REST2V5 a h)) (a_ozone a)) /\
   within_or_nan 0 0.03 (deref (fst (clear_sky_REST2V5 a h)) (a_nitrogen_dioxide a)) /\
   within_or_nan 0 1 (deref (fst (clear_sky_REST2V5 a h)) (a_surface_albedo a))) /\
  snd (clear_sky_REST2V5 a h) =
    (NdArray (shape (deref h (a_zenith_angle a)))
       ((fun i => point_ghi (clamp_point (point_at a h i)))
        <$> seq 0 (size (deref h (a_zenith_angle a)))),
     NdArray (shape (deref h (a_zenith_angle a)))
       ((fun i => point_dni (clamp_point (point_at a h i)))
        <$> seq 0 (size (deref h (a_zenith_angle a)))),
     NdArray (shape (deref h (a_zenith_angle a)))
       ((fun i => point_dhi (clamp_point (point_at a h i)))
        <$> seq 0 (size (deref h (a_zenith_angle a))))).
Proof.
  intros ND. destruct bounds_ordered as (B1&B2&B3&B4&B5&B6&_).
  destruct (args_list_distinct a ND) as (_ & _ & _ & ND').
  pose proof (lookup_clamp_inputs a h ND') as (E1&E2&E3&E4&E5&E6).
  split.
  - unfold clear_sky_REST2V5. cbn [fst snd].
    rewrite (deref_fmap _ _ _ _ E1), (deref_fmap _ _ _ _ E2), (deref_fmap _ _ _ _ E3),
      (deref_fmap _ _ _ _ E4), (deref_fmap _ _ _ _ E5), (deref_fmap _ _ _ _ E6).
    repeat split; by apply within_or_nan_clamp.
  - unfold clear_sky_REST2V5. cbn [fst snd].
    by rewrite !result_array_clamp_inputs.
Qed.

(** C6.  For six distinct atmospheric array objects, lines 60-71 applied
    twice leave the heap that they leave applied once; and when every
    element of every atmospheric array is within its documented bound they
    change nothing. *)
Theorem clamp_inputs_idempotent_and_noop a (h : heap) :
  NoDup (atmosphere a) ->
  clamp_inputs a (clamp_inputs a h) = clamp_inputs a h /\
  (within_bounds a h -> clamp_inputs a h = h).
Proof.
  intros ND. split.
  - by apply clamp_inputs_idempotent.
  - apply clamp_inputs_noop.
Qed.

(** C8.  On the clamped inputs at one index, both bands are computed from
    one turbidity [beta = AOD550 / 0.55^(-alpha)] clamped to [[0, 1.1]],
    with [alpha] the clamped Angstrom exponent; [beta] lies in [[0, 1.1]]
    unless it is NaN. *)
Theorem turbidity_shared_by_both_bands p :
  let alpha := clamp_Angstrom_exponent (p_Angstrom_exponent p) in
  let beta := clamp 0 1.1 (p_AOD550 p / np_power 0.55 (-1 * alpha)) in
  let q := clamp_point p in
  let am := air_masses (p_zenith_angle q) (p_pressure q) in
  band_irradiances q =
    (irradiance 0.46512
       (band1 am (p_ozone q) (p_nitrogen_dioxide q) (p_water_vapour q) alpha beta)
       (p_zenith_angle q) (p_Eext q) (p_surface_albedo q),
     irradiance 0.51951
       (band2 am (p_water_vapour q) alpha beta)
       (p_zenith_angle q) (p_Eext q) (p_surface_albedo q)) /\
  (is_nan beta || in_range 0 1.1 beta) = true.
Proof.
  intros alpha beta q am. split.
  - reflexivity.
  - destruct (is_nan (p_AOD550 p / np_power 0.55 (-1 * alpha))) eqn:E.
    + unfold beta. rewrite clamp_nan, E by done. reflexivity.
    + unfold beta. rewrite clamp_in_range by (done || reflexivity). apply orb_true_r.
Qed.


End KernelFacts.

(* ================================================================= *)
(** * The model evaluated at concrete inputs *)

Lemma fresh_args_distinct : NoDup (args_list fresh_args).
Proof. apply (bool_decide_unpack _). vm_compute. exact I. Qed.

Lemma fresh_atmosphere_distinct : NoDup (atmosphere fresh_args).
Proof. apply (bool_decide_unpack _). vm_compute. exact I. Qed.

(** The boundary scenario of the specification (sun at the zenith). *)
Example boundary_scenario :
  snd (@clear_sky_REST2V5 RefNumPy.ref fresh_args (scenario 0 1361 1.3))
  = (one 1090.7497703257013, one 964.76314370052501, one 125.98662662517623).
Proof. vm_compute. reflexivity. Qed.

(** C1, witness: at 150 degrees everything returned is zero. *)
Lemma below_horizon_outputs_zero_witness :
  (0 < size (deref (clamp_inputs fresh_args (scenario night 1361 1.3))
                   (a_zenith_angle fresh_args)))%nat /\
  @below_horizon RefNumPy.ref
    (elem (deref (clamp_inputs fresh_args (scenario night 1361 1.3))
                 (a_zenith_angle fresh_args)) 0) = true /\
  @Ebh (@point_totals RefNumPy.ref
          (point_at fresh_args (clamp_inputs fresh_args (scenario night 1361 1.3)) 0)) = 0 /\
  elem (snd (fst (snd (@clear_sky_REST2V5 RefNumPy.ref fresh_args
                         (scenario night 1361 1.3))))) 0 = 0 /\
  elem (snd (snd (@clear_sky_REST2V5 RefNumPy.ref fresh_args
                    (scenario night 1361 1.3)))) 0 = 0 /\
  elem (fst (fst (snd (@clear_sky_REST2V5 RefNumPy.ref fresh_args
                         (scenario night 1361 1.3))))) 0 = 0.
Proof.
  assert (H1 : (0 < size (deref (clamp_inputs fresh_args (scenario night 1361 1.3))
                                (a_zenith_angle fresh_args)))%nat)
    by (vm_compute; lia).
  assert (H2 : @below_horizon RefNumPy.ref
                 (elem (deref (clamp_inputs fresh_args (scenario night 1361 1.3))
                              (a_zenith_angle fresh_args)) 0) = true)
    by (vm_compute; reflexivity).
  exact (conj H1 (conj H2
    (@below_horizon_outputs_zero RefNumPy.ref fresh_args (scenario night 1361 1.3) 0 H1 H2))).
Defined.

(** C1, counterexample: at 150 degrees the diffuse sum with the
    quality-control floor alone is about 27.96 W/m2, and the returned DHI
    is 0: the below-horizon rule does change DHI. *)
Lemma dhi_below_horizon_counterexample :
  @below_horizon RefNumPy.ref night = true /\
  (27.9 <? @dhi_floor_only RefNumPy.ref
             (point_at fresh_args (clamp_inputs fresh_args (scenario night 1361 1.3)) 0))
    = true /\
  snd (snd (@clear_sky_REST2V5 RefNumPy.ref fresh_args (scenario night 1361 1.3)))
    = one 0.
Proof. vm_compute. repeat split; reflexivity. Qed.


(** C5, witness: the clamp-triggering scenario.  An Angstrom exponent of
    5.0 gives the arrays that 2.5 gives. *)
Lemma clamped_values_flow_witness :
  NoDup (args_list fresh_args) /\
  snd (@clear_sky_REST2V5 RefNumPy.ref fresh_args (scenario 0 1361 5))
  = snd (@clear_sky_REST2V5 RefNumPy.ref fresh_args (scenario 0 1361 2.5)).
Proof.
  split; [exact fresh_args_distinct|].
  destruct (@clamped_values_flow RefNumPy.ref fresh_args (scenario 0 1361 5)
              fresh_args_distinct) as [_ E1].
  destruct (@clamped_values_flow RefNumPy.ref fresh_args (scenario 0 1361 2.5)
              fresh_args_distinct) as [_ E2].
  rewrite E1, E2. vm_compute. reflexivity.
Defined.

(** C6, witness: the standard atmosphere is within bounds and is left as
    it is. *)
Lemma clamp_inputs_idempotent_and_noop_witness :
  NoDup (atmosphere fresh_args) /\
  within_bounds fresh_args (scenario 0 1361 1.3) /\
  clamp_inputs fresh_args (clamp_inputs fresh_args (scenario 0 1361 5))
    = clamp_inputs fresh_args (scenario 0 1361 5) /\
  clamp_inputs fresh_args (scenario 0 1361 1.3) = scenario 0 1361 1.3.
Proof.
  assert (WB : within_bounds fresh_args (scenario 0 1361 1.3)).
  { unfold within_bounds, all_in_range. repeat split; vm_compute; repeat constructor. }
  split; [exact fresh_atmosphere_distinct|]. split; [exact WB|]. split.
  - exact (proj1 (clamp_inputs_idempotent_and_noop fresh_args (scenario 0 1361 5)
                    fresh_atmosphere_distinct)).
  - exact (proj2 (clamp_inputs_idempotent_and_noop fresh_args (scenario 0 1361 1.3)
                    fresh_atmosphere_distinct) WB).
Defined.


(* ================================================================= *)
(** * More facts about binary64 comparisons: transitivity *)

Lemma SFcompare_lt_trans x y z :
  SFcompare x y = Some Lt -> SFcompare y z = Some Lt -> SFcompare x z = Some Lt.
Proof.
  destruct x as [sx|sx| |sx mx ex], y as [sy|sy| |sy my ey], z as [sz|sz| |sz mz ez];
    simpl; try discriminate; try (destruct sx, sy, sz; simpl; congruence).
  destruct sx, sy, sz; simpl; try congruence.
  - destruct (Z.compare_spec ex ey), (Z.compare_spec ey ez), (Z.compare_spec ex ez);
      try discriminate; try reflexivity; try lia; subst.
    change (PosDef.Pos.compare_cont Eq) with Pos.compare.
    destruct (Pos.compare_spec mx my), (Pos.compare_spec my mz), (Pos.compare_spec mx mz);
      simpl; try discriminate; try reflexivity; try lia.
  - destruct (Z.compare_spec ex ey), (Z.compare_spec ey ez), (Z.compare_spec ex ez);
      try discriminate; try reflexivity; try lia; subst.
    change (PosDef.Pos.compare_cont Eq) with Pos.compare.
    destruct (Pos.compare_spec mx my), (Pos.compare_spec my mz), (Pos.compare_spec mx mz);
      simpl; try discriminate; try reflexivity; try lia.
Qed.

Lemma SFcompare_lt_eq x y z :
  SFcompare x y = Some Lt -> SFcompare y z = Some Eq -> SFcompare x z = Some Lt.
Proof.
  destruct x as [sx|sx| |sx mx ex], y as [sy|sy| |sy my ey], z as [sz|sz| |sz mz ez];
    simpl; try discriminate; try (destruct sx, sy, sz; simpl; congruence).
  destruct sx, sy, sz; simpl; try congruence.
  - destruct (Z.compare_spec ex ey), (Z.compare_spec ey ez), (Z.compare_spec ex ez);
      try discriminate; try reflexivity; try lia; subst.
    change (PosDef.Pos.compare_cont Eq) with Pos.compare.
    destruct (Pos.compare_spec mx my), (Pos.compare_spec my mz), (Pos.compare_spec mx mz);
      simpl; try discriminate; try reflexivity; try lia.
  - destruct (Z.compare_spec ex ey), (Z.compare_spec ey ez), (Z.compare_spec ex ez);
      try discriminate; try reflexivity; try lia; subst.
    change (PosDef.Pos.compare_cont Eq) with Pos.compare.
    destruct (Pos.compare_spec mx my), (Pos.compare_spec my mz), (Pos.compare_spec mx mz);
      simpl; try discriminate; try reflexivity; try lia.
Qed.

Lemma ltb_trans x y z : (x <? y) = true -> (y <? z) = true -> (x <? z) = true.
Proof.
  rewrite !FloatAxioms.ltb_spec. unfold SFltb.
  destruct (SFcompare (Prim2SF x) (Prim2SF y)) as [[]|] eqn:E1; try done.
  destruct (SFcompare (Prim2SF y) (Prim2SF z)) as [[]|] eqn:E2; try done.
  by rewrite (SFcompare_lt_trans _ _ _ E1 E2).
Qed.

Lemma ltb_leb_trans x y z : (x <? y) = true -> (y <=? z) = true -> (x <? z) = true.
Proof.
  rewrite !FloatAxioms.ltb_spec, FloatAxioms.leb_spec. unfold SFltb, SFleb.
  destruct (SFcompare (Prim2SF x) (Prim2SF y)) as [[]|] eqn:E1; try done.
  destruct (SFcompare (Prim2SF y) (Prim2SF z)) as [[]|] eqn:E2; try done.
  - by rewrite (SFcompare_lt_eq _ _ _ E1 E2).
  - by rewrite (SFcompare_lt_trans _ _ _ E1 E2).
Qed.

Lemma leb_false_ltb x y :
  is_nan x = false -> is_nan y = false -> (y <=? x) = false -> (x <? y) = true.
Proof.
  rewrite !is_nan_spec, FloatAxioms.ltb_spec, FloatAxioms.leb_spec.
  unfold SFltb, SFleb.
  rewrite (SFcompare_swap (Prim2SF x) (Prim2SF y)).
  destruct (SFcompare (Prim2SF x) (Prim2SF y)) as [[]|] eqn:E; simpl; try done.
  apply SFcompare_None in E as [-> | ->]; done.
Qed.

(* ================================================================= *)
(** * The constructor *)

Lemma is_nan_abs x : is_nan (abs x) = is_nan x.
Proof.
  rewrite !is_nan_spec, FloatAxioms.abs_spec. by destruct (Prim2SF x).
Qed.

Lemma ltb_np_maximum c x y :
  is_nan x = false -> is_nan y = false ->
  is_nan (np_maximum x y) = false /\
  (c <? np_maximum x y) = (c <? x) || (c <? y).
Proof.
  intros Hx Hy. unfold np_maximum. rewrite Hx, orb_false_r.
  destruct (y <=? x) eqn:E.
  - split; [done|]. destruct (c <? y) eqn:E1; [|by rewrite orb_false_r].
    by rewrite (ltb_leb_trans _ _ _ E1 E).
  - split; [done|]. destruct (c <? x) eqn:E1; [|done].
    apply leb_false_ltb in E; [|done..].
    by rewrite (ltb_trans _ _ _ E1 E).
Qed.

Lemma ltb_fold_maximum c l x :
  is_nan x = false -> Forall (fun y => is_nan y = false) l ->
  (c <? fold_left np_maximum l x) = existsb (fun y => c <? y) (x :: l).
Proof.
  intros Hx Hl. revert x Hx. induction Hl as [|y l Hy Hl IH]; intros x Hx; simpl.
  - by rewrite orb_false_r.
  - destruct (ltb_np_maximum c x y Hx Hy) as [Hn E].
    rewrite (IH _ Hn). simpl. rewrite E. by rewrite orb_assoc.
Qed.

Lemma existsb_fmap {A B} (f : B -> bool) (g : A -> B) l :
  existsb f (g <$> l) = existsb (fun x => f (g x)) l.
Proof.
  induction l as [|x l IH]; [done|].
  rewrite fmap_cons. cbn [existsb]. by rewrite IH.
Qed.

(** [np.max(np.abs(a)) > c], for an array without NaN. *)
Lemma np_max_abs_gt c a :
  no_nan a ->
  match np_max (np_abs a) with
  | inl _ => data a = []
  | inr m => data a <> [] /\ (c <? m) = existsb (fun x => c <? abs x) (data a)
  end.
Proof.
  unfold no_nan, np_max, np_abs, amap. cbn [data]. intros HF.
  destruct (data a) as [|x l]; [done|]. rewrite fmap_cons.
  split; [done|]. apply Forall_cons in HF as [Hx Hl].
  rewrite ltb_fold_maximum.
  - cbn [existsb]. f_equal. by rewrite existsb_fmap.
  - by rewrite is_nan_abs.
  - apply Forall_fmap. eapply Forall_impl; [exact Hl|]. intros y Hy. simpl. by rewrite is_nan_abs.
Qed.

Lemma existsb_Exists {A} (f : A -> bool) l :
  existsb f l = true <-> Exists (fun x => f x = true) l.
Proof.
  rewrite existsb_exists, Exists_exists. split; intros (x & H1 & H2); exists x; split; try done.
  - by apply list_elem_of_In.
  - by apply list_elem_of_In.
Qed.

Lemma reshape_ok s a : fold_right Nat.mul 1%nat s = size a -> reshape s a = inr (NdArray s (data a)).
Proof. intros E. unfold reshape. by rewrite E, Nat.eqb_refl. Qed.

Lemma size_result_array {np : NumPy} f a (h : heap) :
  size (result_array f a h) = size (deref h (a_zenith_angle a)).
Proof. unfold size, result_array. cbn [data]. by rewrite length_fmap, length_seq. Qed.

(** C7 (amended).  For well-formed coordinate arrays without NaN, the
    constructor raises if and only if the shapes of [lat] and [lon] differ,
    or the arrays are empty ([np.max] of an empty array), or some
    [|lat| > 90], or some [|lon| > 180], or [elev] has not one element per
    station ([elev.reshape] fails).  It raises instead of returning the
    object, so nothing is computed after a failure.  The numeric
    computation itself raises nothing: for every heap it returns three
    arrays with one value for each element of [zenith_angle]. *)
Theorem init_raises_iff lat lon elev time datadir pandas :
  well_formed lat -> well_formed lon -> no_nan lat -> no_nan lon ->
  (is_error (__init__ lat lon elev time datadir pandas) = true <->
     shape lat <> shape lon \/
     size lat = 0%nat \/
     Exists (fun x => (90 <? abs x) = true) (data lat) \/
     Exists (fun x => (180 <? abs x) = true) (data lon) \/
     size elev <> size lat) /\
  (forall (np : NumPy) (a : args) (h : heap),
     size (fst (fst (snd (clear_sky_REST2V5 a h))))
       = size (deref (clamp_inputs a h) (a_zenith_angle a)) /\
     size (snd (fst (snd (clear_sky_REST2V5 a h))))
       = size (deref (clamp_inputs a h) (a_zenith_angle a)) /\
     size (snd (snd (clear_sky_REST2V5 a h)))
       = size (deref (clamp_inputs a h) (a_zenith_angle a))).
Proof.
  intros Wlat Wlon Nlat Nlon. split.
  2:{ intros np a h. unfold clear_sky_REST2V5. cbn [fst snd].
      repeat split; apply size_result_array. }
  unfold __init__, shape_eqb.
  case_bool_decide as Hs; simpl.
  2:{ split; [auto|done]. }
  assert (Hsz : size lon = size lat).
  { unfold well_formed in *. by rewrite Wlat, Wlon, Hs. }
  pose proof (np_max_abs_gt 90 lat Nlat) as Hlat.
  destruct (np_max (np_abs lat)) as [e|m]; simpl.
  { split; [|done]. intros _. right; left. unfold size. by rewrite Hlat. }
  destruct Hlat as [Hne Hlat]. rewrite Hlat.
  destruct (existsb (fun x => 90 <? abs x) (data lat)) eqn:E1; simpl.
  { split; [|done]. intros _. right; right; left. by apply existsb_Exists. }
  pose proof (np_max_abs_gt 180 lon Nlon) as Hlon.
  destruct (np_max (np_abs lon)) as [e|m']; simpl.
  { split; [|done]. intros _. right; left. rewrite <- Hsz. unfold size. by rewrite Hlon. }
  destruct Hlon as [Hne' Hlon]. rewrite Hlon.
  destruct (existsb (fun x => 180 <? abs x) (data lon)) eqn:E2; simpl.
  { split; [|done]. intros _. do 3 right; left. by apply existsb_Exists. }
  rewrite (reshape_ok [size lat] lat) by (simpl; lia). simpl.
  rewrite (reshape_ok [size lat] lon) by (simpl; lia). simpl.
  unfold reshape. simpl. rewrite Nat.mul_1_r.
  destruct (size lat =? size elev)%nat eqn:E3; simpl.
  - apply Nat.eqb_eq in E3. split; [done|].
    intros [H|[H|[H|[H|H]]]]; try done.
    + unfold size in H. by destruct (data lat).
    + apply existsb_Exists in H. congruence.
    + apply existsb_Exists in H. congruence.
  - apply Nat.eqb_neq in E3. split; [|done]. intros _. do 4 right. congruence.
Qed.

(** C7, witness: one station at latitude 10, longitude 20. *)
Lemma init_raises_iff_witness :
  well_formed (one 10) /\ well_formed (one 20) /\ no_nan (one 10) /\ no_nan (one 20) /\
  (is_error (__init__ (one 10) (one 20) (one 100) [] "" true) = true <->
     shape (one 10) <> shape (one 20) \/
     size (one 10) = 0%nat \/
     Exists (fun x => (90 <? abs x) = true) (data (one 10)) \/
     Exists (fun x => (180 <? abs x) = true) (data (one 20)) \/
     size (one 100) <> size (one 10)) /\
  is_error (__init__ (one 10) (one 20) (one 100) [] "" true) = false.
Proof.
  assert (W1 : well_formed (one 10)) by reflexivity.
  assert (W2 : well_formed (one 20)) by reflexivity.
  assert (N1 : no_nan (one 10)) by (repeat constructor).
  assert (N2 : no_nan (one 20)) by (repeat constructor).
  exact (conj W1 (conj W2 (conj N1 (conj N2 (conj
    (proj1 (init_raises_iff (one 10) (one 20) (one 100) [] "" true W1 W2 N1 N2))
    eq_refl))))).
Defined.

(** C7, counterexample: equal shapes and coordinates in range, and the
    constructor raises, because [elev] holds two values for one station. *)
Lemma init_elev_counterexample :
  spec_rejects (one 10) (one 20) = false /\
  __init__ (one 10) (one 20) (NdArray [2%nat] [100; 200]) [] "" true
    = inl (ValueError "cannot reshape array").
Proof. split; vm_compute; reflexivity. Qed.

(** A NaN hides a latitude out of range: [np.max] returns the NaN and
    [nan > 90] is false. *)
Example init_nan_latitude :
  spec_rejects (NdArray [2%nat] [nan; 95]) (NdArray [2%nat] [0; 0]) = true /\
  is_error (__init__ (NdArray [2%nat] [nan; 95]) (NdArray [2%nat] [0; 0])
              (NdArray [2%nat] [0; 0]) [] "" true) = false.
Proof. split; vm_compute; reflexivity. Qed.

(** Empty coordinate arrays: [np.max] raises. *)
Example init_empty :
  spec_rejects (NdArray [0%nat] []) (NdArray [0%nat] []) = false /\
  is_error (__init__ (NdArray [0%nat] []) (NdArray [0%nat] []) (NdArray [0%nat] [])
              [] "" true) = true.
Proof. split; vm_compute; reflexivity. Qed.

(* ================================================================= *)
(** * The orchestrator *)

Lemma elem_amap_lt f a i : (i < size a)%nat -> elem (amap f a) i = f (elem a i).
Proof.
  intros Hi. unfold elem, amap, size in *. simpl.
  rewrite !nth_lookup, list_lookup_fmap.
  destruct (lookup_lt_is_Some_2 _ _ Hi) as [x ->]. done.
Qed.

Lemma size_amap f a : size (amap f a) = size a.
Proof. unfold size, amap. simpl. apply length_fmap. Qed.

Lemma length_column a j : length (column a j) = nrows a.
Proof. unfold column. by rewrite length_fmap, length_seq. Qed.

Lemma agree_elem T S B P s t :
  agree T S B P -> (s < S)%nat -> (t < T)%nat ->
  elem (P s) t = elem B (t * S + s).
Proof.
  intros (Hsh & Hsz & HP) Hs Ht. destruct (HP s Hs) as [_ Hd].
  unfold elem at 1. rewrite Hd. unfold column, nrows, ncols. rewrite Hsh. simpl.
  exact (elem_result (fun t => elem B (t * S + s)%nat) T t Ht).
Qed.

Lemma agree_size T S B P s : agree T S B P -> (s < S)%nat -> size (P s) = T.
Proof.
  intros (Hsh & Hsz & HP) Hs. destruct (HP s Hs) as [_ Hd].
  unfold size. rewrite Hd, length_column. unfold nrows. by rewrite Hsh.
Qed.

Lemma agree_index T S s t : (s < S)%nat -> (t < T)%nat -> (t * S + s < T * S)%nat.
Proof. intros. nia. Qed.

Section Calls.
Context {np : NumPy}.

(** A call on fresh arrays, array by array. *)
Lemma call_clear_sky_eq z E p w o n aod al rg :
  call_clear_sky z E p w o n aod al rg =
    (NdArray (shape z) (kernel_at point_ghi z E p w o n aod al rg <$> seq 0 (size z)),
     NdArray (shape z) (kernel_at point_dni z E p w o n aod al rg <$> seq 0 (size z)),
     NdArray (shape z) (kernel_at point_dhi z E p w o n aod al rg <$> seq 0 (size z))).
Proof.
  unfold call_clear_sky, clear_sky_REST2V5. cbn [snd].
  rewrite !result_array_clamp_inputs by exact fresh_args_distinct.
  reflexivity.
Qed.
End Calls.

Lemma any_differs_refl t : any_differs t t = false.
Proof.
  unfold any_differs. induction t as [|x t IH]; [done|].
  cbn [zip zip_with existsb fst snd]. rewrite Z.eqb_refl. exact IH.
Qed.

Lemma same_flag_same_grid time :
  Forall (fun t => t = nth 0 time []) time -> same_flag time = true.
Proof.
  intros HF. unfold same_flag.
  assert (HT : Forall (fun t => t = nth 0 time []) (tail time)).
  { destruct time; [done|]. by apply Forall_cons in HF as [_ HF]. }
  generalize (nth 0 time []) HT. clear HF HT. intros t0 HT.
  induction HT as [|t l -> _ IH]; [done|].
  cbn [fold_left]. rewrite bool_decide_eq_true_2 by done.
  rewrite any_differs_refl. exact IH.
Qed.

Section Orchestrator.
Context {np : NumPy}.
Variable latlon2solarzenith : ndarray -> ndarray -> tarray -> ndarray.
Variable data_eext_builder : tarray -> ndarray.
Variable extract_for_MERRA2 :
  ndarray -> ndarray -> tarray -> ndarray -> string -> merra2.

(** Element [t] of a per-station output is element [(t, s)] of the batch. *)
Lemma kernel_column f T S s
    (z E p w o n aod al rg zs Es ps ws os ns aods als rgs : ndarray) :
  (s < S)%nat ->
  (forall t, (t < T)%nat ->
     elem zs t = elem z (t * S + s) /\ elem Es t = elem E (t * S + s) /\
     elem ps t = elem p (t * S + s) /\ elem ws t = elem w (t * S + s) /\
     elem os t = elem o (t * S + s) /\ elem ns t = elem n (t * S + s) /\
     elem aods t = elem aod (t * S + s) /\ elem als t = elem al (t * S + s) /\
     elem rgs t = elem rg (t * S + s)) ->
  kernel_at f zs Es ps ws os ns aods als rgs <$> seq 0 T =
  column (NdArray [T; S] (kernel_at f z E p w o n aod al rg <$> seq 0 (T * S))) s.
Proof.
  intros Hs He. unfold column, nrows, ncols. cbn [shape nth].
  apply list_fmap_ext. intros i t Hl.
  apply lookup_seq in Hl as [-> Hi]. cbn [Nat.add].
  unfold elem at 1. cbn [data].
  rewrite (elem_result (kernel_at f z E p w o n aod al rg) (T * S) (i * S + s))
    by (by apply agree_index).
  unfold kernel_at.
  destruct (He i Hi) as (->&->&->&->&->&->&->&->&->). reflexivity.
Qed.

Lemma calls_agree T S s
    (z E p w o n aod al rg : ndarray) (zs Es ps ws os ns aods als rgs : nat -> ndarray) :
  agree T S z zs -> agree T S E Es -> agree T S p ps -> agree T S w ws ->
  agree T S o os -> agree T S n ns -> agree T S aod aods -> agree T S al als ->
  agree T S rg rgs -> (s < S)%nat ->
  let batch := call_clear_sky (amap np_deg2rad z) E p w o n aod al rg in
  let st := call_clear_sky (amap np_deg2rad (zs s)) (Es s) (ps s) (ws s) (os s)
              (ns s) (aods s) (als s) (rgs s) in
  data (fst (fst st)) = column (fst (fst batch)) s /\
  data (snd (fst st)) = column (snd (fst batch)) s /\
  data (snd st) = column (snd batch) s.
Proof.
  intros Az AE Ap Aw Ao An Aa Aal Ar Hs batch st.
  assert (He : forall t, (t < T)%nat ->
     elem (amap np_deg2rad (zs s)) t = elem (amap np_deg2rad z) (t * S + s) /\
     elem (Es s) t = elem E (t * S + s) /\
     elem (ps s) t = elem p (t * S + s) /\ elem (ws s) t = elem w (t * S + s) /\
     elem (os s) t = elem o (t * S + s) /\ elem (ns s) t = elem n (t * S + s) /\
     elem (aods s) t = elem aod (t * S + s) /\ elem (als s) t = elem al (t * S + s) /\
     elem (rgs s) t = elem rg (t * S + s)).
  { intros t Ht. pose proof (agree_index T S s t Hs Ht) as Hidx.
    rewrite !elem_amap_lt.
    - rewrite (agree_elem _ _ _ _ s t Az Hs Ht), (agree_elem _ _ _ _ s t AE Hs Ht),
        (agree_elem _ _ _ _ s t Ap Hs Ht), (agree_elem _ _ _ _ s t Aw Hs Ht),
        (agree_elem _ _ _ _ s t Ao Hs Ht), (agree_elem _ _ _ _ s t An Hs Ht),
        (agree_elem _ _ _ _ s t Aa Hs Ht), (agree_elem _ _ _ _ s t Aal Hs Ht),
        (agree_elem _ _ _ _ s t Ar Hs Ht).
      repeat split; reflexivity.
    - destruct Az as (_ & -> & _). exact Hidx.
    - by rewrite (agree_size _ _ _ _ s Az Hs). }
  unfold batch, st. rewrite !call_clear_sky_eq. cbn [fst snd data].
  rewrite !size_amap, (agree_size _ _ _ _ s Az Hs).
  destruct Az as (Hsh & Hsz & _). rewrite Hsz. cbn [amap shape]. rewrite Hsh.
  repeat split; apply (kernel_column _ T S s); done.
Qed.

Lemma station_columns self s :
  collaborators_agree latlon2solarzenith data_eext_builder extract_for_MERRA2 self ->
  (s < length (time self))%nat ->
  let m := extract_for_MERRA2 (lat self) (lon self) (time_T (time self))
             (elev self) (datadir self) in
  let batch :=
    call_clear_sky
      (amap np_deg2rad (latlon2solarzenith (lat self) (lon self) (time_T (time self))))
      (data_eext_builder (time_T (time self)))
      (m_pressure m) (m_water_vapour m) (m_ozone m) (m_nitrogen_dioxide m)
      (m_AOD550 m) (m_Angstrom_exponent m) (m_surface_albedo m) in
  let st := station latlon2solarzenith data_eext_builder extract_for_MERRA2 self s in
  data (fst (fst st)) = column (fst (fst batch)) s /\
  data (snd (fst st)) = column (snd (fst batch)) s /\
  data (snd st) = column (snd batch) s.
Proof.
  intros (Az & AE & Ap & Aw & Ao & An & Aa & Aal & Ar) Hs.
  exact (calls_agree _ _ s _ _ _ _ _ _ _ _ _ _ _ _ _ _ _ _ _ _
           Az AE Ap Aw Ao An Aa Aal Ar Hs).
Qed.

(** C3.  When every station has the time grid of the first one and the
    collaborators return the same values for the whole grid as station by
    station, [REST2v5] takes the batched path, and the batched path and the
    per-station path return the same GHI, DNI and DHI for every station and
    time: the same list of frames, or (without pandas) transposed arrays
    that hold the per-station arrays one after the other. *)
Theorem batch_equivalence self :
  Forall (fun t => t = nth 0 (time self) []) (time self) ->
  collaborators_agree latlon2solarzenith data_eext_builder extract_for_MERRA2 self ->
  REST2v5 latlon2solarzenith data_eext_builder extract_for_MERRA2 self
    = REST2v5_homogeneous latlon2solarzenith data_eext_builder extract_for_MERRA2 self /\
  same_values
    (REST2v5_homogeneous latlon2solarzenith data_eext_builder extract_for_MERRA2 self)
    (REST2v5_heterogeneous latlon2solarzenith data_eext_builder extract_for_MERRA2 self).
Proof.
  intros Hgrid Hagree. split.
  - unfold REST2v5. by rewrite same_flag_same_grid.
  - pose proof (fun s => station_columns self s Hagree) as Hcol. cbv zeta in Hcol.
    unfold REST2v5_homogeneous, REST2v5_heterogeneous.
    set (b := call_clear_sky _ _ _ _ _ _ _ _ _) in *.
    assert (Hsh : ncols (fst (fst b)) = length (time self) /\
                  ncols (snd (fst b)) = length (time self) /\
                  ncols (snd b) = length (time self)).
    { unfold b. rewrite call_clear_sky_eq. cbn [fst snd]. unfold ncols. cbn [shape amap].
      destruct Hagree as ((-> & _) & _). done. }
    destruct b as [[ghi dni] dhi]. cbn [fst snd] in *.
    destruct Hsh as (Sg & Sd & Sh).
    destruct (pandas_output self); cbn [same_values].
    + apply list_fmap_ext. intros i s Hl.
      apply lookup_seq in Hl as [-> Hs]. cbn [Nat.add].
      destruct (Hcol i Hs) as (E1 & E2 & E3).
      destruct (station _ _ _ self i) as [[gs ds] hs]. cbn [fst snd] in *.
      by rewrite E1, E2, E3.
    + unfold transpose. cbn [data]. rewrite <- !list_fmap_compose.
      rewrite Sg, Sd, Sh.
      repeat split; apply (f_equal (@concat float)); apply list_fmap_ext; intros i s Hl;
        apply lookup_seq in Hl as [-> Hs]; cbn [Nat.add];
        destruct (Hcol i Hs) as (E1 & E2 & E3); symmetry; assumption.
Qed.

End Orchestrator.

(** The stand-in collaborators agree on two stations with one grid. *)
Lemma demo_agree pandas : collaborators_agree demo_zenith demo_eext demo_merra2 (demo_self pandas).
Proof.
  unfold collaborators_agree, agree.
  repeat split; try reflexivity.
  all: match goal with H : (_ < _)%nat |- _ => cbn in H end.
  all: match goal with s : nat |- _ => destruct s as [|[|s]]; [reflexivity|reflexivity|lia] end.
Qed.

(** C3, witness: two stations, two time stamps, frames as output. *)
Lemma batch_equivalence_witness :
  Forall (fun t => t = nth 0 (time (demo_self true)) []) (time (demo_self true)) /\
  collaborators_agree demo_zenith demo_eext demo_merra2 (demo_self true) /\
  @REST2v5 RefNumPy.ref demo_zenith demo_eext demo_merra2 (demo_self true)
    = @REST2v5_homogeneous RefNumPy.ref demo_zenith demo_eext demo_merra2 (demo_self true) /\
  same_values
    (@REST2v5_homogeneous RefNumPy.ref demo_zenith demo_eext demo_merra2 (demo_self true))
    (@REST2v5_heterogeneous RefNumPy.ref demo_zenith demo_eext demo_merra2 (demo_self true)).
Proof.
  assert (H1 : Forall (fun t => t = nth 0 (time (demo_self true)) []) (time (demo_self true)))
    by (repeat constructor).
  exact (conj H1 (conj (demo_agree true)
    (@batch_equivalence RefNumPy.ref demo_zenith demo_eext demo_merra2 (demo_self true)
       H1 (demo_agree true)))).
Defined.

(* ================================================================= *)
(** * The air masses *)

Section AirMassFacts.
Context {np : NumPy}.


End AirMassFacts.


(** Where every power has a base that is not negative the two agree up to
    rounding: at 0, 60 and 85 degrees, to a relative 1e-12; and the
    pressure-corrected air mass then agrees with [pressure / 1013.25] times
    the Rayleigh air mass. *)
Example real_domain_air_mass_in_domain :
  forallb (fun z =>
    let am := @air_masses RefNumPy.ref z 900 in
    close (ama am) (@real_domain_air_mass RefNumPy.ref 0.16851 0.18198 95.318 1.9542 z)
    && close (amw am) (@real_domain_air_mass RefNumPy.ref 0.10648 0.11423 93.781 1.9203 z)
    && close (amo am) (@real_domain_air_mass RefNumPy.ref 1.0651 0.6379 101.8 2.2694 z)
    && close (amR am) (@real_domain_air_mass RefNumPy.ref 0.48353 0.095846 96.741 1.754 z)
    && close (amRe am) (900 / 1013.25 * amR am))
    [0; 1.0471975511965976; 1.4835298641951802] = true.
Proof. vm_compute. reflexivity. Qed.

(* ================================================================= *)
(** * What the call leaves of the heap, under any aliasing *)

Lemma alter_amap_keeps f k (h : heap) l :
  shape <$> (alter (amap f) k h !! l) = shape <$> (h !! l) /\
  size <$> (alter (amap f) k h !! l) = size <$> (h !! l).
Proof.
  rewrite lookup_alter. case_decide; [subst|done].
  destruct (h !! l) as [a|]; [|done]. cbn. split; [done|].
  f_equal. unfold size, amap. cbn. apply length_fmap.
Qed.

Lemma clamp_inputs_keeps a (h : heap) l :
  shape <$> (clamp_inputs a h !! l) = shape <$> (h !! l) /\
  size <$> (clamp_inputs a h !! l) = size <$> (h !! l).
Proof.
  unfold clamp_inputs.
  repeat match goal with
  | |- context [alter (amap ?f) ?k ?h0 !! l] =>
      destruct (alter_amap_keeps f k h0 l) as [-> ->]
  end. done.
Qed.

Lemma size_deref_clamp_inputs a (h : heap) l :
  size (deref (clamp_inputs a h) l) = size (deref h l).
Proof.
  destruct (clamp_inputs_keeps a h l) as [_ E]. unfold deref.
  destruct (clamp_inputs a h !! l), (h !! l); cbn in *; congruence.
Qed.

Lemma is_nan_clamp lo hi x :
  (lo <=? hi) = true -> is_nan (clamp lo hi x) = is_nan x.
Proof.
  intros Hb. destruct (is_nan x) eqn:E.
  - by rewrite clamp_nan.
  - pose proof (clamp_in_range lo hi x Hb E) as [H _]%andb_prop.
    by apply leb_not_nan in H as [_ H].
Qed.

Lemma is_nan_elem_clamp lo hi a i :
  (lo <=? hi) = true -> is_nan (elem (amap (clamp lo hi) a) i) = is_nan (elem a i).
Proof.
  intros Hb. rewrite elem_amap by (by apply clamp_nan). by apply is_nan_clamp.
Qed.

Section HeapFacts.
Context {np : NumPy}.

(** X2.  Whatever objects the nine arguments are (the same array may be
    passed under several names), the call creates and deletes no object of
    the heap and changes neither the shape nor the number of elements of
    any: lines 60-71 assign element values only. *)
Theorem clear_sky_REST2V5_keeps_shapes a (h : heap) l :
  shape <$> (fst (clear_sky_REST2V5 a h) !! l) = shape <$> (h !! l) /\
  size <$> (fst (clear_sky_REST2V5 a h) !! l) = size <$> (h !! l) /\
  (is_Some (fst (clear_sky_REST2V5 a h) !! l) <-> is_Some (h !! l)).
Proof.
  unfold clear_sky_REST2V5. cbn [fst].
  destruct (clamp_inputs_keeps a h l) as [E1 E2]. split; [done|]. split; [done|].
  rewrite <- !(fmap_is_Some shape), E1. done.
Qed.

(** X15.  Clamping repairs no missing value: for six distinct atmospheric
    array objects, an element of an atmospheric array is NaN after the
    call exactly when it was NaN before (the masks [a > hi] and [a < lo]
    are false at a NaN). *)
Theorem clear_sky_REST2V5_keeps_nan a (h : heap) l i :
  NoDup (atmosphere a) -> l ∈ atmosphere a ->
  is_nan (elem (deref (fst (clear_sky_REST2V5 a h)) l) i)
  = is_nan (elem (deref h l) i).
Proof.
  intros ND Hin. unfold clear_sky_REST2V5. cbn [fst].
  destruct bounds_ordered as (B1&B2&B3&B4&B5&B6&_).
  pose proof (lookup_clamp_inputs a h ND) as (E1&E2&E3&E4&E5&E6).
  unfold atmosphere in Hin. rewrite !elem_of_cons in Hin.
  destruct Hin as [->|[->|[->|[->|[->|[->|Hin]]]]]]; [..|by apply elem_of_nil in Hin].
  - rewrite (deref_fmap _ _ _ _ E1). by apply is_nan_elem_clamp.
  - rewrite (deref_fmap _ _ _ _ E2). by apply is_nan_elem_clamp.
  - rewrite (deref_fmap _ _ _ _ E3). by apply is_nan_elem_clamp.
  - rewrite (deref_fmap _ _ _ _ E4). by apply is_nan_elem_clamp.
  - rewrite (deref_fmap _ _ _ _ E5). by apply is_nan_elem_clamp.
  - rewrite (deref_fmap _ _ _ _ E6). by apply is_nan_elem_clamp.
Qed.

End HeapFacts.

(** X15, witness: a NaN ozone column stays NaN. *)
Lemma clear_sky_REST2V5_keeps_nan_witness :
  NoDup (atmosphere fresh_args) /\ a_ozone fresh_args ∈ atmosphere fresh_args /\
  is_nan (elem (deref (fst (@clear_sky_REST2V5 RefNumPy.ref fresh_args
                              (<[a_ozone fresh_args := one nan]> (scenario 0 1361 1.3))))
                      (a_ozone fresh_args)) 0)
  = is_nan (elem (deref (<[a_ozone fresh_args := one nan]> (scenario 0 1361 1.3))
                        (a_ozone fresh_args)) 0).
Proof.
  assert (H : a_ozone fresh_args ∈ atmosphere fresh_args).
  { apply (bool_decide_unpack _). vm_compute. exact I. }
  exact (conj fresh_atmosphere_distinct (conj H
    (@clear_sky_REST2V5_keeps_nan RefNumPy.ref fresh_args
       (<[a_ozone fresh_args := one nan]> (scenario 0 1361 1.3))
       (a_ozone fresh_args) 0%nat fresh_atmosphere_distinct H))).
Defined.

(* ================================================================= *)
(** * NaN and the kernel *)

Lemma is_nan_mul_l x y : is_nan x = true -> is_nan (x * y) = true.
Proof.
  rewrite !is_nan_spec, FloatAxioms.mul_spec. unfold SF64mul.
  destruct (Prim2SF x); try done.
Qed.

Lemma is_nan_add_l x y : is_nan x = true -> is_nan (x + y) = true.
Proof.
  rewrite !is_nan_spec, FloatAxioms.add_spec. unfold SF64add.
  destruct (Prim2SF x); try done.
Qed.

Lemma is_nan_add_r x y : is_nan y = true -> is_nan (x + y) = true.
Proof.
  rewrite !is_nan_spec, FloatAxioms.add_spec. unfold SF64add.
  destruct (Prim2SF x), (Prim2SF y); try done.
Qed.

Lemma quality_control_nan x : is_nan x = true -> quality_control x = 0.
Proof. intros H. rewrite quality_control_eq, H, orb_true_r. done. Qed.

(** A positive output is the value before quality control. *)
Lemma quality_control_pos x : (0 <? quality_control x) = true -> quality_control x = x.
Proof.
  rewrite quality_control_eq. destruct ((x <? 0) || is_nan x); [|done].
  by rewrite ltb_irrefl.
Qed.

Section KernelEdges.
Context {np : NumPy}.

Lemma is_nan_Ebn fr b z E rg :
  is_nan E = true -> is_nan (Ebn (irradiance fr b z E rg)) = true.
Proof.
  intros H. unfold irradiance. cbn [Ebn].
  repeat apply is_nan_mul_l. exact H.
Qed.

Lemma is_nan_Edp fr b z E rg :
  is_nan E = true -> is_nan (Edp (irradiance fr b z E rg)) = true.
Proof.
  intros H. unfold irradiance. cbn [Edp].
  repeat apply is_nan_mul_l. exact H.
Qed.

(** A NaN extraterrestrial irradiance makes every sum NaN, and quality
    control turns the NaN into 0. *)
Lemma nan_Eext_gives_zero p :
  is_nan (p_Eext p) = true ->
  point_ghi p = 0 /\ point_dni p = 0 /\ point_dhi p = 0.
Proof.
  intros H. unfold point_ghi, point_dni, point_dhi, point_totals, band_irradiances.
  unfold band_totals, set_night. cbn [raw_ghi raw_dni raw_dhi].
  destruct (below_horizon (p_zenith_angle p)).
  - repeat split; reflexivity.
  - repeat split; apply quality_control_nan.
    + apply is_nan_add_r. do 3 apply is_nan_add_l. by apply is_nan_Edp.
    + apply is_nan_add_l. by apply is_nan_Ebn.
    + do 3 apply is_nan_add_l. by apply is_nan_Edp.
Qed.

(** X7.  The nitrogen-dioxide transmittances of band 1 (at the water-vapour
    air mass and at air mass 1.66) never exceed 1: each is at most 1, or
    NaN (lines 116-122 cap them with [a[a > 1] = 1]). *)
Theorem Tn_never_exceeds_one am o n w al beta :
  let b := band1 am o n w al beta in
  (1 <? Tn b) = false /\ (1 <? Tn166 b) = false /\
  (is_nan (Tn b) || (Tn b <=? 1)) = true /\
  (is_nan (Tn166 b) || (Tn166 b <=? 1)) = true.
Proof.
  assert (G : forall x, (1 <? set_gt 1 x) = false).
  { intros x. unfold set_gt. destruct (1 <? x) eqn:E; [apply ltb_irrefl|exact E]. }
  assert (G' : forall x, (1 <? x) = false -> (is_nan x || (x <=? 1)) = true).
  { intros x Hx. destruct (is_nan x) eqn:E; [done|]. cbn.
    apply ltb_false_leb; done. }
  intros b. unfold b, band1. cbn [Tn Tn166].
  repeat split; first [apply G | apply G'; apply G].
Qed.

(** X8.  Closure.  Where the three returned values are positive, the sun
    is not below the horizon and they satisfy, exactly in binary64,
    [ghi = dni * cos(zenith_angle) + dhi]: quality control changed none
    of them, and GHI was computed as [Ebh + dhi] with
    [Ebh = dni * cos(zenith_angle)]. *)
Theorem closure_where_positive p :
  (0 <? point_ghi p) = true -> (0 <? point_dni p) = true -> (0 <? point_dhi p) = true ->
  below_horizon (p_zenith_angle p) = false /\
  point_ghi p = point_dni p * np_cos (p_zenith_angle p) + point_dhi p.
Proof.
  intros Hg Hd Hh.
  destruct (below_horizon (p_zenith_angle p)) eqn:Hn.
  { unfold point_ghi in Hg. rewrite (night_totals p Hn) in Hg. cbn in Hg.
    vm_compute in Hg. discriminate. }
  split; [done|].
  apply quality_control_pos in Hg as Eg. apply quality_control_pos in Hd as Ed.
  apply quality_control_pos in Hh as Eh.
  unfold point_ghi, point_dni, point_dhi in *. rewrite Eg, Ed, Eh.
  unfold point_totals. destruct (band_irradiances p) as [i1 i2].
  unfold band_totals, set_night. rewrite Hn. reflexivity.
Qed.

(** X9.  Missing irradiance is reported as darkness: at every index where
    [Eext] holds a NaN (and [Eext] is none of the clamped arrays), the
    returned GHI, DNI and DHI are 0. *)
Theorem nan_Eext_outputs_zero a (h : heap) i :
  (a_Eext a ∉ atmosphere a) ->
  (i < size (deref h (a_zenith_angle a)))%nat ->
  is_nan (elem (deref h (a_Eext a)) i) = true ->
  elem (fst (fst (snd (clear_sky_REST2V5 a h)))) i = 0 /\
  elem (snd (fst (snd (clear_sky_REST2V5 a h)))) i = 0 /\
  elem (snd (snd (clear_sky_REST2V5 a h))) i = 0.
Proof.
  intros HE Hi Hn. unfold clear_sky_REST2V5. cbn [fst snd].
  rewrite !elem_result_array by (by rewrite size_deref_clamp_inputs).
  apply nan_Eext_gives_zero. unfold point_at. cbn [p_Eext].
  by rewrite (deref_same _ _ _ (lookup_clamp_inputs_other a h _ HE)).
Qed.

Lemma point_at_insert_albedo a (h : heap) rg i :
  NoDup (args_list a) ->
  point_at a (<[a_surface_albedo a := rg]> h) i
  = with_surface_albedo (point_at a h i) (elem rg i).
Proof.
  unfold args_list, atmosphere. rewrite !NoDup_cons, !not_elem_of_cons.
  intros ND. unfold point_at, with_surface_albedo, deref.
  cbn [p_zenith_angle p_Eext p_pressure p_water_vapour p_ozone p_nitrogen_dioxide
       p_AOD550 p_Angstrom_exponent].
  rewrite lookup_insert_eq.
  rewrite !lookup_insert_ne by intuition congruence. reflexivity.
Qed.

(** X10.  DNI does not depend on the surface albedo: for nine distinct
    argument objects, the call with any other array in the place of
    [surface_albedo] returns the same DNI array (the albedo enters
    [Edd1] and [Edd2] only, which DHI and GHI sum). *)
Theorem dni_ignores_albedo a (h : heap) rg :
  NoDup (args_list a) ->
  snd (fst (snd (clear_sky_REST2V5 a (<[a_surface_albedo a := rg]> h))))
  = snd (fst (snd (clear_sky_REST2V5 a h))).
Proof.
  intros ND. unfold clear_sky_REST2V5. cbn [fst snd].
  rewrite !result_array_clamp_inputs by done.
  assert (Hz : deref (<[a_surface_albedo a := rg]> h) (a_zenith_angle a)
               = deref h (a_zenith_angle a)).
  { apply deref_same. apply lookup_insert_ne.
    revert ND. unfold args_list, atmosphere. rewrite !NoDup_cons, !not_elem_of_cons.
    intuition congruence. }
  rewrite Hz. f_equal. apply list_fmap_ext. intros _ i _.
  by rewrite point_at_insert_albedo.
Qed.

End KernelEdges.

(** X8, witness: the boundary scenario, sun at the zenith. *)
Lemma closure_where_positive_witness :
  let p := point_at fresh_args (clamp_inputs fresh_args (scenario 0 1361 1.3)) 0 in
  (0 <? @point_ghi RefNumPy.ref p) = true /\ (0 <? @point_dni RefNumPy.ref p) = true /\
  (0 <? @point_dhi RefNumPy.ref p) = true /\
  @point_ghi RefNumPy.ref p
  = @point_dni RefNumPy.ref p * @np_cos RefNumPy.ref (p_zenith_angle p)
    + @point_dhi RefNumPy.ref p.
Proof.
  intros p.
  assert (H1 : (0 <? @point_ghi RefNumPy.ref p) = true) by (vm_compute; reflexivity).
  assert (H2 : (0 <? @point_dni RefNumPy.ref p) = true) by (vm_compute; reflexivity).
  assert (H3 : (0 <? @point_dhi RefNumPy.ref p) = true) by (vm_compute; reflexivity).
  exact (conj H1 (conj H2 (conj H3
    (proj2 (@closure_where_positive RefNumPy.ref p H1 H2 H3))))).
Defined.

(** X9, witness: the boundary scenario with a NaN in [Eext]. *)
Lemma nan_Eext_outputs_zero_witness :
  (a_Eext fresh_args ∉ atmosphere fresh_args) /\
  (0 < size (deref (scenario 0 nan 1.3) (a_zenith_angle fresh_args)))%nat /\
  is_nan (elem (deref (scenario 0 nan 1.3) (a_Eext fresh_args)) 0) = true /\
  elem (fst (fst (snd (@clear_sky_REST2V5 RefNumPy.ref fresh_args (scenario 0 nan 1.3))))) 0 = 0.
Proof.
  assert (H1 : a_Eext fresh_args ∉ atmosphere fresh_args).
  { apply (bool_decide_unpack _). vm_compute. exact I. }
  assert (H2 : (0 < size (deref (scenario 0 nan 1.3) (a_zenith_angle fresh_args)))%nat)
    by (vm_compute; lia).
  assert (H3 : is_nan (elem (deref (scenario 0 nan 1.3) (a_Eext fresh_args)) 0) = true)
    by (vm_compute; reflexivity).
  exact (conj H1 (conj H2 (conj H3
    (proj1 (@nan_Eext_outputs_zero RefNumPy.ref fresh_args (scenario 0 nan 1.3) 0%nat H1 H2 H3))))).
Defined.

(** X10, witness: the boundary scenario with an albedo of 0.9. *)
Lemma dni_ignores_albedo_witness :
  NoDup (args_list fresh_args) /\
  snd (fst (snd (@clear_sky_REST2V5 RefNumPy.ref fresh_args
                   (<[a_surface_albedo fresh_args := one 0.9]> (scenario 0 1361 1.3)))))
  = snd (fst (snd (@clear_sky_REST2V5 RefNumPy.ref fresh_args (scenario 0 1361 1.3)))).
Proof.
  exact (conj fresh_args_distinct
    (@dni_ignores_albedo RefNumPy.ref fresh_args (scenario 0 1361 1.3) (one 0.9)
       fresh_args_distinct)).
Defined.

(* ================================================================= *)
(** * The constructor: what it stores and what it lets through *)

Lemma reshape_inr s a b :
  reshape s a = inr b -> b = NdArray s (data a) /\ fold_right Nat.mul 1%nat s = size a.
Proof.
  unfold reshape. destruct (_ =? _)%nat eqn:E; [|done].
  intros [= <-]. split; [done|]. by apply Nat.eqb_eq.
Qed.

(** The object a successful construction returns. *)
Lemma init_inr lat0 lon0 elev0 time0 datadir0 pandas0 self :
  __init__ lat0 lon0 elev0 time0 datadir0 pandas0 = inr self ->
  self = {| lat := NdArray [size lat0] (data lat0);
            lon := NdArray [size lat0] (data lon0);
            elev := NdArray [size lat0; 1%nat] (data elev0);
            time := time0; datadir := datadir0; pandas_output := pandas0 |} /\
  shape lat0 = shape lon0 /\ size lon0 = size lat0 /\ size elev0 = size lat0 /\
  size lat0 <> 0%nat.
Proof.
  unfold __init__, shape_eqb. case_bool_decide as Hs; [|done]. cbn [negb].
  unfold np_max at 1. unfold np_abs at 1. cbn [data amap].
  destruct (data lat0) as [|x l] eqn:Hd; [done|]. rewrite fmap_cons. cbn [bind].
  destruct (90 <? _); [done|].
  destruct (np_max (np_abs lon0)) as [e|m]; [done|]. cbn [bind].
  destruct (180 <? m); [done|].
  destruct (reshape [size lat0] lat0) as [e|lat'] eqn:E1; [done|]. cbn [bind].
  destruct (reshape [size lat0] lon0) as [e|lon'] eqn:E2; [done|]. cbn [bind].
  destruct (reshape [size lat0; 1%nat] elev0) as [e|elev'] eqn:E3; [done|]. cbn [bind].
  intros [= <-].
  apply reshape_inr in E1 as [-> _]. apply reshape_inr in E2 as [-> H2].
  apply reshape_inr in E3 as [-> H3]. cbn in H2, H3. rewrite Hd.
  repeat split; try done; try lia.
  unfold size. rewrite Hd. done.
Qed.

(** X3.  A construction that succeeds stores the coordinates flattened to
    one entry per station: [lat] and [lon] with shape [(station_num,)],
    [elev] with shape [(station_num, 1)], each with the elements of the
    argument in their order and each filling its shape; [time], [datadir]
    and [pandas] are stored as given.  There is at least one station. *)
Theorem init_returns lat0 lon0 elev0 time0 datadir0 pandas0 self :
  __init__ lat0 lon0 elev0 time0 datadir0 pandas0 = inr self ->
  (shape (lat self) = [size lat0] /\ data (lat self) = data lat0 /\
   well_formed (lat self)) /\
  (shape (lon self) = [size lat0] /\ data (lon self) = data lon0 /\
   well_formed (lon self)) /\
  (shape (elev self) = [size lat0; 1%nat] /\ data (elev self) = data elev0 /\
   well_formed (elev self)) /\
  time self = time0 /\ datadir self = datadir0 /\ pandas_output self = pandas0 /\
  size lat0 <> 0%nat.
Proof.
  intros (-> & _ & H2 & H3 & H0)%init_inr. cbn [lat lon elev time datadir pandas_output].
  unfold well_formed, size in *. cbn [shape data fold_right].
  repeat split; try done; lia.
Qed.

(** X3, witness: two stations given as a 1 x 2 array. *)
Lemma init_returns_witness :
  __init__ (NdArray [1%nat; 2%nat] [10; -40]) (NdArray [1%nat; 2%nat] [20; 170])
    (NdArray [2%nat] [0; 500]) [] "d" false
  = inr {| lat := NdArray [2%nat] [10; -40]; lon := NdArray [2%nat] [20; 170];
           elev := NdArray [2%nat; 1%nat] [0; 500]; time := []; datadir := "d";
           pandas_output := false |} /\
  shape (elev {| lat := NdArray [2%nat] [10; -40]; lon := NdArray [2%nat] [20; 170];
                 elev := NdArray [2%nat; 1%nat] [0; 500]; time := []; datadir := "d";
                 pandas_output := false |})
  = [size (NdArray [1%nat; 2%nat] [10; -40]); 1%nat].
Proof.
  assert (H : __init__ (NdArray [1%nat; 2%nat] [10; -40]) (NdArray [1%nat; 2%nat] [20; 170])
    (NdArray [2%nat] [0; 500]) [] "d" false
  = inr {| lat := NdArray [2%nat] [10; -40]; lon := NdArray [2%nat] [20; 170];
           elev := NdArray [2%nat; 1%nat] [0; 500]; time := []; datadir := "d";
           pandas_output := false |}) by (vm_compute; reflexivity).
  split; [exact H|].
  exact (proj1 (proj1 (proj2 (proj2 (init_returns _ _ _ _ _ _ _ H))))).
Defined.

(** X4.  The checks in their order.  For well-formed, non-empty coordinate
    arrays without NaN the constructor is this decision list: differing
    shapes raise "lat and lon not match..."; else a latitude beyond 90 in
    magnitude raises the latitude message; else a longitude beyond 180
    raises the longitude message; else an [elev] that has not one element
    per station raises the [ValueError] of [reshape]; else the object is
    returned.  So a latitude error hides a longitude error, and both hide
    an [elev] of the wrong size. *)
Theorem init_error_order lat0 lon0 elev0 time0 datadir0 pandas0 :
  well_formed lat0 -> well_formed lon0 -> no_nan lat0 -> no_nan lon0 ->
  size lat0 <> 0%nat ->
  __init__ lat0 lon0 elev0 time0 datadir0 pandas0 =
    if negb (shape_eqb (shape lat0) (shape lon0))
    then inl (Exception "lat and lon not match...")
    else if existsb (fun x => 90 <? abs x) (data lat0)
    then inl (Exception "90<= lattitude <=90, reset your latitude")
    else if existsb (fun x => 180 <? abs x) (data lon0)
    then inl (Exception "-180<= lontitude <=180, reset your lontitude")
    else if (size lat0 =? size elev0)%nat
    then inr {| lat := NdArray [size lat0] (data lat0);
                lon := NdArray [size lat0] (data lon0);
                elev := NdArray [size lat0; 1%nat] (data elev0);
                time := time0; datadir := datadir0; pandas_output := pandas0 |}
    else inl (ValueError "cannot reshape array").
Proof.
  intros Wlat Wlon Nlat Nlon Hne. unfold __init__, shape_eqb.
  case_bool_decide as Hs; cbn [negb]; [|done].
  assert (Hsz : size lon0 = size lat0).
  { unfold well_formed in *. by rewrite Wlat, Wlon, Hs. }
  pose proof (np_max_abs_gt 90 lat0 Nlat) as Hlat.
  destruct (np_max (np_abs lat0)) as [e|m]; cbn [bind raise].
  { unfold size in Hne. by rewrite Hlat in Hne. }
  destruct Hlat as [_ ->].
  destruct (existsb (fun x => 90 <? abs x) (data lat0)); [done|].
  pose proof (np_max_abs_gt 180 lon0 Nlon) as Hlon.
  destruct (np_max (np_abs lon0)) as [e|m']; cbn [bind raise].
  { unfold size in Hne, Hsz. rewrite Hlon in Hsz. cbn in Hsz. lia. }
  destruct Hlon as [_ ->].
  destruct (existsb (fun x => 180 <? abs x) (data lon0)); [done|].
  rewrite (reshape_ok [size lat0] lat0) by (cbn; lia). cbn [bind].
  rewrite (reshape_ok [size lat0] lon0) by (cbn; lia). cbn [bind].
  unfold reshape. cbn [fold_right]. rewrite Nat.mul_1_r.
  destruct (size lat0 =? size elev0)%nat; done.
Qed.

(** X4, witness: latitude and longitude out of range and three elevations
    for two stations; the latitude message is the one raised. *)
Lemma init_error_order_witness :
  well_formed (NdArray [2%nat] [95; 0]) /\ well_formed (NdArray [2%nat] [200; 0]) /\
  no_nan (NdArray [2%nat] [95; 0]) /\ no_nan (NdArray [2%nat] [200; 0]) /\
  size (NdArray [2%nat] [95; 0]) <> 0%nat /\
  __init__ (NdArray [2%nat] [95; 0]) (NdArray [2%nat] [200; 0]) (NdArray [3%nat] [0; 0; 0])
    [] "d" true
  = inl (Exception "90<= lattitude <=90, reset your latitude").
Proof.
  assert (W1 : well_formed (NdArray [2%nat] [95; 0])) by reflexivity.
  assert (W2 : well_formed (NdArray [2%nat] [200; 0])) by reflexivity.
  assert (N1 : no_nan (NdArray [2%nat] [95; 0])) by (repeat constructor).
  assert (N2 : no_nan (NdArray [2%nat] [200; 0])) by (repeat constructor).
  assert (S1 : size (NdArray [2%nat] [95; 0]) <> 0%nat) by (cbn; lia).
  refine (conj W1 (conj W2 (conj N1 (conj N2 (conj S1 _))))).
  rewrite (init_error_order _ _ (NdArray [3%nat] [0; 0; 0]) [] "d" true W1 W2 N1 N2 S1).
  vm_compute. reflexivity.
Defined.

Lemma np_maximum_nan_l x y : is_nan x = true -> np_maximum x y = x.
Proof. intros H. unfold np_maximum. by rewrite H, orb_true_r. Qed.

Lemma fold_maximum_nan_acc l x :
  is_nan x = true -> is_nan (fold_left np_maximum l x) = true.
Proof.
  revert x. induction l as [|y l IH]; intros x Hx; [done|].
  cbn [fold_left]. apply IH. by rewrite np_maximum_nan_l.
Qed.

(** [np.max] of an array that holds a NaN is NaN, wherever the NaN is. *)
Lemma fold_maximum_nan l x :
  Exists (fun y => is_nan y = true) (x :: l) ->
  is_nan (fold_left np_maximum l x) = true.
Proof.
  revert x. induction l as [|y l IH]; intros x H.
  - apply Exists_cons in H as [H|H]; [done|]. by apply Exists_nil in H.
  - cbn [fold_left]. destruct (is_nan x) eqn:Hx.
    + apply fold_maximum_nan_acc. by rewrite np_maximum_nan_l.
    + apply Exists_cons in H as [H|H]; [congruence|].
      apply Exists_cons in H as [H|H].
      * apply fold_maximum_nan_acc. unfold np_maximum. rewrite Hx, orb_false_r.
        destruct (y <=? x) eqn:E; [|done].
        apply leb_not_nan in E as [E _]. congruence.
      * apply IH. apply Exists_cons. right. exact H.
Qed.

Lemma ltb_nan_r c x : is_nan x = true -> (c <? x) = false.
Proof.
  intros H. destruct (c <? x) eqn:E; [|done].
  apply ltb_not_nan in E as [_ E]. congruence.
Qed.

(** X5.  One NaN latitude switches the latitude check off: when [lat]
    holds a NaN, [np.max(np.abs(lat))] is NaN and [nan > 90] is false, so
    the construction succeeds whatever the other latitudes are (given
    equal shapes, longitudes without NaN within 180 and one elevation per
    station). *)
Theorem init_nan_latitude_passes lat0 lon0 elev0 time0 datadir0 pandas0 :
  shape lat0 = shape lon0 -> well_formed lat0 -> well_formed lon0 ->
  Exists (fun x => is_nan x = true) (data lat0) ->
  no_nan lon0 -> existsb (fun x => 180 <? abs x) (data lon0) = false ->
  size elev0 = size lat0 ->
  is_error (__init__ lat0 lon0 elev0 time0 datadir0 pandas0) = false.
Proof.
  intros Hs Wlat Wlon Hnan Nlon Hlon He. unfold __init__, shape_eqb.
  rewrite bool_decide_eq_true_2 by done. cbn [negb].
  assert (Hsz : size lon0 = size lat0).
  { unfold well_formed in *. by rewrite Wlat, Wlon, Hs. }
  unfold np_max at 1. unfold np_abs at 1. cbn [data amap].
  destruct (data lat0) as [|x l] eqn:Hd; [by apply Exists_nil in Hnan|].
  rewrite fmap_cons. cbn [bind].
  rewrite ltb_nan_r.
  2:{ apply fold_maximum_nan. rewrite <- fmap_cons. apply Exists_fmap.
      eapply Exists_impl; [exact Hnan|]. intros y Hy. cbn. by rewrite is_nan_abs. }
  pose proof (np_max_abs_gt 180 lon0 Nlon) as Hl.
  destruct (np_max (np_abs lon0)) as [e|m']; cbn [bind].
  { unfold size in Hsz. rewrite Hl, Hd in Hsz. done. }
  destruct Hl as [_ ->]. rewrite Hlon.
  rewrite (reshape_ok [size lat0] lat0) by (cbn; lia). cbn [bind].
  rewrite (reshape_ok [size lat0] lon0) by (cbn; lia). cbn [bind].
  rewrite (reshape_ok [size lat0; 1%nat] elev0) by (cbn; lia). done.
Qed.

(** X5, witness: latitudes NaN and 95. *)
Lemma init_nan_latitude_passes_witness :
  shape (NdArray [2%nat] [nan; 95]) = shape (NdArray [2%nat] [0; 0]) /\
  Exists (fun x => is_nan x = true) (data (NdArray [2%nat] [nan; 95])) /\
  Exists (fun x => (90 <? abs x) = true) (data (NdArray [2%nat] [nan; 95])) /\
  is_error (__init__ (NdArray [2%nat] [nan; 95]) (NdArray [2%nat] [0; 0])
              (NdArray [2%nat] [0; 0]) [] "d" true) = false.
Proof.
  assert (H1 : shape (NdArray [2%nat] [nan; 95]) = shape (NdArray [2%nat] [0; 0]))
    by reflexivity.
  assert (H2 : Exists (fun x => is_nan x = true) (data (NdArray [2%nat] [nan; 95])))
    by (left; reflexivity).
  assert (H3 : Exists (fun x => (90 <? abs x) = true) (data (NdArray [2%nat] [nan; 95])))
    by (right; left; reflexivity).
  refine (conj H1 (conj H2 (conj H3 _))).
  apply (init_nan_latitude_passes _ _ _ [] "d" true H1); try reflexivity; try exact H2.
  repeat constructor.
Defined.

(** X6.  What a station's query receives.  After a successful
    construction, the per-station path indexes the stored arrays at a
    station [i] below [station_num] and obtains the [i]-th latitude and
    longitude of the arguments (in row-major order) as scalars, and the
    [i]-th elevation as an array of shape (1,). *)
Theorem station_receives_own_coordinates lat0 lon0 elev0 time0 datadir0 pandas0 self i :
  __init__ lat0 lon0 elev0 time0 datadir0 pandas0 = inr self ->
  (i < size lat0)%nat ->
  item (lat self) i = NdArray [] [elem lat0 i] /\
  item (lon self) i = NdArray [] [elem lon0 i] /\
  row (elev self) i = NdArray [1%nat] [elem elev0 i].
Proof.
  intros (-> & _ & _ & He & _)%init_inr Hi.
  repeat split; try reflexivity.
  unfold row, ncols. cbn [elev shape nth data]. rewrite Nat.mul_1_r. f_equal.
  unfold elem, size in *.
  destruct (lookup_lt_is_Some_2 (data elev0) i ltac:(lia)) as [x Hx].
  rewrite (nth_lookup_Some _ _ _ _ Hx).
  rewrite (drop_S _ _ _ Hx). done.
Qed.

(** X6, witness: the second of two stations. *)
Lemma station_receives_own_coordinates_witness :
  __init__ (NdArray [2%nat; 1%nat] [35; -12]) (NdArray [2%nat; 1%nat] [139; 77])
    (NdArray [2%nat] [40; 920]) [] "d" true
  = inr {| lat := NdArray [2%nat] [35; -12]; lon := NdArray [2%nat] [139; 77];
           elev := NdArray [2%nat; 1%nat] [40; 920]; time := []; datadir := "d";
           pandas_output := true |} /\
  lt 1%nat (size (NdArray [2%nat; 1%nat] [35; -12])) /\
  row (NdArray [2%nat; 1%nat] [40; 920]) 1
  = NdArray [1%nat] [elem (NdArray [2%nat] [40; 920]) 1].
Proof.
  assert (H : __init__ (NdArray [2%nat; 1%nat] [35; -12]) (NdArray [2%nat; 1%nat] [139; 77])
    (NdArray [2%nat] [40; 920]) [] "d" true
  = inr {| lat := NdArray [2%nat] [35; -12]; lon := NdArray [2%nat] [139; 77];
           elev := NdArray [2%nat; 1%nat] [40; 920]; time := []; datadir := "d";
           pandas_output := true |}) by (vm_compute; reflexivity).
  assert (Hi : lt 1%nat (size (NdArray [2%nat; 1%nat] [35; -12]))) by (cbn; lia).
  exact (conj H (conj Hi
    (proj2 (proj2 (station_receives_own_coordinates _ _ _ _ _ _ _ 1%nat H Hi))))).
Defined.

(* ================================================================= *)
(** * The orchestrator: the path taken and the form of the result *)

Lemma any_differs_false_eq t t0 :
  length t = length t0 -> any_differs t t0 = false -> t = t0.
Proof.
  unfold any_differs. revert t0. induction t as [|x t IH]; intros [|y t0] Hl H; try done.
  cbn [zip zip_with existsb fst snd] in H. apply orb_false_elim in H as [H1 H2].
  apply negb_false_iff, Z.eqb_eq in H1. subst y. f_equal.
  apply IH; [by injection Hl|exact H2].
Qed.

(** Once the flag is 0 it stays 0. *)
Lemma same_flag_step_false t0 l :
  fold_left
    (fun flag t =>
       if bool_decide (length t = length t0)
       then if any_differs t t0 then false else flag
       else false) l false = false.
Proof.
  induction l as [|t l IH]; [done|]. cbn [fold_left].
  case_bool_decide; [|exact IH]. destruct (any_differs t t0); exact IH.
Qed.

Lemma same_flag_true_grid time :
  same_flag time = true -> Forall (fun t => t = nth 0 time []) time.
Proof.
  unfold same_flag. destruct time as [|t0 rest]; [constructor|].
  cbn [tail nth]. intros H. constructor; [done|].
  induction rest as [|t l IH]; [constructor|].
  cbn [fold_left] in H. case_bool_decide as Hl.
  - destruct (any_differs t t0) eqn:Hd.
    + by rewrite same_flag_step_false in H.
    + constructor; [by apply any_differs_false_eq|by apply IH].
  - by rewrite same_flag_step_false in H.
Qed.

Lemma Forall_elem (P : float -> Prop) a i :
  Forall P (data a) -> (i < size a)%nat -> P (elem a i).
Proof.
  intros HF Hi. unfold elem, size in *.
  destruct (lookup_lt_is_Some_2 (data a) i Hi) as [x Hx].
  rewrite (nth_lookup_Some _ _ _ _ Hx).
  by eapply Forall_lookup_1.
Qed.

Lemma Forall_column (P : float -> Prop) a T S j :
  shape a = [T; S] -> size a = (T * S)%nat -> (j < S)%nat ->
  Forall P (data a) -> Forall P (column a j).
Proof.
  intros Hsh Hsz Hj HF. unfold column, nrows, ncols. rewrite Hsh. cbn [nth].
  apply Forall_fmap, Forall_forall. intros t Ht%elem_of_seq. cbn.
  apply Forall_elem; [done|]. rewrite Hsz. apply agree_index; lia.
Qed.

Lemma Forall_hstack3 (P : float -> Prop) g d h :
  Forall P g -> Forall P d -> Forall P h -> Forall (Forall P) (hstack3 g d h).
Proof.
  intros Hg Hd Hh. unfold hstack3.
  apply Forall_zip_with_fst with (P := P).
  - exact Hg.
  - revert h Hh. induction Hd as [|y d Hy Hd IH]; intros h Hh; [constructor|].
    destruct Hh as [|z h Hz Hh]; [constructor|].
    cbn [zip zip_with]. constructor; [|by apply IH].
    intros x Hx. repeat constructor; done.
Qed.

Lemma Forall_transpose (P : float -> Prop) a T S :
  shape a = [T; S] -> size a = (T * S)%nat ->
  Forall P (data a) -> Forall P (data (transpose a)).
Proof.
  intros Hsh Hsz HF. unfold transpose. cbn [data].
  apply Forall_concat, Forall_fmap, Forall_forall. intros j Hj%elem_of_seq.
  cbn. apply (Forall_column P a T S); try done.
  unfold ncols in Hj. rewrite Hsh in Hj. cbn in Hj. lia.
Qed.

(** [np.hstack] of three columns gives rows of three values. *)
Lemma hstack3_rows g d h : Forall (fun r => length r = 3%nat) (hstack3 g d h).
Proof.
  unfold hstack3. generalize (zip d h). intros k. revert k.
  induction g as [|x g IH]; intros [|yz k]; cbn [zip_with]; try constructor; [done|apply IH].
Qed.

Lemma concat_join {A} (ls : list (list A)) : concat ls = mjoin ls.
Proof. induction ls as [|l ls IH]; [done|]. cbn. by rewrite IH. Qed.

(** Element [(s, t)] of [a.T] is element [(t, s)] of [a]. *)
Lemma elem_transpose a T S s t :
  shape a = [T; S] -> (s < S)%nat -> (t < T)%nat ->
  elem (transpose a) (s * T + t) = elem a (t * S + s).
Proof.
  intros Hsh Hs Ht. unfold elem at 1. unfold transpose. cbn [data].
  rewrite concat_join.
  assert (HL : Forall (fun l => length l = T) (column a <$> seq 0 (ncols a))).
  { apply Forall_fmap, Forall_forall. intros j _. cbn. rewrite length_column.
    unfold nrows. by rewrite Hsh. }
  assert (E : mjoin (column a <$> seq 0 (ncols a)) !! (s * T + t)%nat
              = Some (elem a (t * S + s))).
  { apply (join_lookup_Some_same_length' T _ s t _ HL Ht).
    exists (column a s). split.
    - rewrite list_lookup_fmap, lookup_seq_lt; [done|].
      unfold ncols. by rewrite Hsh.
    - unfold column, nrows, ncols. rewrite Hsh. cbn [nth].
      rewrite list_lookup_fmap, lookup_seq_lt by done. done. }
  by rewrite (nth_lookup_Some _ _ _ _ E).
Qed.

Section OrchestratorForm.
Context {np : NumPy}.
Variable latlon2solarzenith : ndarray -> ndarray -> tarray -> ndarray.
Variable data_eext_builder : tarray -> ndarray.
Variable extract_for_MERRA2 :
  ndarray -> ndarray -> tarray -> ndarray -> string -> merra2.

Lemma call_clear_sky_nonneg z E p w o n aod al rg :
  let r := call_clear_sky z E p w o n aod al rg in
  Forall (fun x => nonneg_number x = true) (data (fst (fst r))) /\
  Forall (fun x => nonneg_number x = true) (data (snd (fst r))) /\
  Forall (fun x => nonneg_number x = true) (data (snd r)).
Proof.
  unfold call_clear_sky, clear_sky_REST2V5. cbn [fst snd].
  repeat split; apply Forall_result_array; intros q; apply quality_control_nonneg.
Qed.

Lemma call_clear_sky_shape z E p w o n aod al rg :
  let r := call_clear_sky z E p w o n aod al rg in
  (shape (fst (fst r)) = shape z /\ size (fst (fst r)) = size z) /\
  (shape (snd (fst r)) = shape z /\ size (snd (fst r)) = size z) /\
  (shape (snd r) = shape z /\ size (snd r) = size z).
Proof.
  cbv zeta. rewrite call_clear_sky_eq. cbn [fst snd shape]. unfold size. cbn [data].
  rewrite !length_fmap, !length_seq. done.
Qed.

(** X1.  The loop of lines 281-288 leaves [same_flag] at 1 exactly when
    every station's time grid equals the first one (same length, same
    time stamps); so [REST2v5] takes the batched path exactly then, and
    the per-station path as soon as one grid differs.  An empty list of
    grids takes the batched path. *)
Theorem REST2v5_path self :
  (same_flag (time self) = true <->
     Forall (fun t => t = nth 0 (time self) []) (time self)) /\
  REST2v5 latlon2solarzenith data_eext_builder extract_for_MERRA2 self =
    if bool_decide (Forall (fun t => t = nth 0 (time self) []) (time self))
    then REST2v5_homogeneous latlon2solarzenith data_eext_builder extract_for_MERRA2 self
    else REST2v5_heterogeneous latlon2solarzenith data_eext_builder extract_for_MERRA2 self.
Proof.
  assert (E : same_flag (time self) = true <->
              Forall (fun t => t = nth 0 (time self) []) (time self)).
  { split; [apply same_flag_true_grid|apply same_flag_same_grid]. }
  split; [exact E|]. unfold REST2v5. case_bool_decide as HF.
  - by rewrite (proj2 E HF).
  - destruct (same_flag (time self)) eqn:Hs; [|done]. destruct HF. by apply E.
Qed.

(** X11.  Whatever the collaborators return, no number in a result of
    [REST2v5] is NaN or negative: not in a frame, not in a batched array,
    not in a per-station array.  (On the batched path the zenith angles
    form a well-formed array of shape (time, station).) *)
Theorem REST2v5_values_nonneg self n_time :
  let zenith_angle := latlon2solarzenith (lat self) (lon self) (time_T (time self)) in
  shape zenith_angle = [n_time; length (time self)] ->
  size zenith_angle = (n_time * length (time self))%nat ->
  Forall (fun x => nonneg_number x = true)
    (output_values (REST2v5 latlon2solarzenith data_eext_builder extract_for_MERRA2 self)).
Proof.
  intros z Hsh Hsz. unfold REST2v5. destruct (same_flag (time self)).
  - unfold REST2v5_homogeneous. fold z.
    set (m := extract_for_MERRA2 _ _ _ _ _).
    pose proof (call_clear_sky_nonneg (amap np_deg2rad z) (data_eext_builder (time_T (time self)))
      (m_pressure m) (m_water_vapour m) (m_ozone m) (m_nitrogen_dioxide m) (m_AOD550 m)
      (m_Angstrom_exponent m) (m_surface_albedo m)) as (Ng & Nd & Nh).
    pose proof (call_clear_sky_shape (amap np_deg2rad z) (data_eext_builder (time_T (time self)))
      (m_pressure m) (m_water_vapour m) (m_ozone m) (m_nitrogen_dioxide m) (m_AOD550 m)
      (m_Angstrom_exponent m) (m_surface_albedo m)) as ((Sg & Zg) & (Sd & Zd) & (Sh & Zh)).
    cbv zeta in *. rewrite size_amap, Hsz in Zg, Zd, Zh.
    cbn [amap shape] in Sg, Sd, Sh. rewrite Hsh in Sg, Sd, Sh.
    destruct (call_clear_sky _ _ _ _ _ _ _ _ _) as [[ghi dni] dhi]. cbn [fst snd] in *.
    destruct (pandas_output self); cbn [output_values].
    + apply Forall_concat, Forall_concat, Forall_fmap, Forall_fmap, Forall_forall.
      intros s Hs%elem_of_seq. unfold compose. cbv beta. cbn [df_values].
      apply Forall_hstack3; eapply Forall_column; try eassumption; lia.
    + rewrite !Forall_app. repeat split; eapply Forall_transpose; eassumption.
  - unfold REST2v5_heterogeneous.
    assert (St : forall s,
      let r := station latlon2solarzenith data_eext_builder extract_for_MERRA2 self s in
      Forall (fun x => nonneg_number x = true) (data (fst (fst r))) /\
      Forall (fun x => nonneg_number x = true) (data (snd (fst r))) /\
      Forall (fun x => nonneg_number x = true) (data (snd r))).
    { intros s. unfold station. apply call_clear_sky_nonneg. }
    cbv zeta in St.
    destruct (pandas_output self); cbn [output_values].
    + apply Forall_concat, Forall_concat, Forall_fmap, Forall_fmap, Forall_forall.
      intros s _. unfold compose. cbv beta. destruct (St s) as (Ng & Nd & Nh).
      destruct (station _ _ _ self s) as [[g d] h]. cbn [fst snd df_values] in *.
      by apply Forall_hstack3.
    + rewrite !Forall_app.
      repeat split; apply Forall_concat, Forall_fmap, Forall_fmap, Forall_forall;
        intros s _; unfold compose; cbv beta; apply St.
Qed.

(** X12.  The form of the result.  With [pandas] the result is a list of
    one frame per station, in station order; the frame of station [i] is
    indexed by that station's own time grid, its columns are GHI, DNI,
    DIF, and each of its rows holds three values.  Without [pandas] the
    result is three arrays when the grids coincide, and otherwise three
    lists with one array per station. *)
Theorem REST2v5_output_form self :
  match REST2v5 latlon2solarzenith data_eext_builder extract_for_MERRA2 self with
  | StationData l =>
      pandas_output self = true /\ length l = length (time self) /\
      forall i, (i < length (time self))%nat ->
        exists fr, l !! i = Some fr /\
          df_index fr = nth i (time self) [] /\ df_columns fr = col_index /\
          Forall (fun r => length r = 3%nat) (df_values fr)
  | Batched ghi dni dhi =>
      pandas_output self = false /\ same_flag (time self) = true
  | PerStation ghi dni dhi =>
      pandas_output self = false /\ same_flag (time self) = false /\
      length ghi = length (time self) /\ length dni = length (time self) /\
      length dhi = length (time self)
  end.
Proof.
  unfold REST2v5. destruct (same_flag (time self)) eqn:Hf.
  - unfold REST2v5_homogeneous.
    destruct (call_clear_sky _ _ _ _ _ _ _ _ _) as [[ghi dni] dhi].
    destruct (pandas_output self); [|done].
    split; [done|]. split; [by rewrite length_fmap, length_seq|].
    intros i Hi. eexists. split.
    + rewrite list_lookup_fmap, lookup_seq_lt by done. reflexivity.
    + cbn. repeat split. apply hstack3_rows.
  - unfold REST2v5_heterogeneous.
    destruct (pandas_output self).
    + split; [done|]. split; [by rewrite length_fmap, length_seq|].
      intros i Hi. eexists. split.
      * rewrite list_lookup_fmap, lookup_seq_lt by done. reflexivity.
      * cbn [fmap option_fmap option_map Nat.add].
        destruct (station _ _ _ self i) as [[g d] h].
        cbn. repeat split. apply hstack3_rows.
    + rewrite !length_fmap, !length_seq. done.
Qed.

(** X13.  Orientation of the batched arrays.  On the batched path without
    [pandas], for zenith angles of shape (time, station), each returned
    array has shape (station, time), and its element at row [s], column
    [t] is the kernel on the clamped inputs at (time [t], station [s]):
    lines 311-313 transpose what [clear_sky_REST2V5] returned. *)
Theorem batched_station_time self n_time s t :
  let zenith_angle :=
    amap np_deg2rad (latlon2solarzenith (lat self) (lon self) (time_T (time self))) in
  let Eext := data_eext_builder (time_T (time self)) in
  let m := extract_for_MERRA2 (lat self) (lon self) (time_T (time self))
             (elev self) (datadir self) in
  let at_time_station := fun f =>
    kernel_at f zenith_angle Eext (m_pressure m) (m_water_vapour m)
      (m_ozone m) (m_nitrogen_dioxide m) (m_AOD550 m) (m_Angstrom_exponent m)
      (m_surface_albedo m) (t * length (time self) + s) in
  same_flag (time self) = true -> pandas_output self = false ->
  shape zenith_angle = [n_time; length (time self)] ->
  size zenith_angle = (n_time * length (time self))%nat ->
  (s < length (time self))%nat -> (t < n_time)%nat ->
  exists ghi dni dhi,
    REST2v5 latlon2solarzenith data_eext_builder extract_for_MERRA2 self
      = Batched ghi dni dhi /\
    shape ghi = [length (time self); n_time] /\
    shape dni = [length (time self); n_time] /\
    shape dhi = [length (time self); n_time] /\
    elem ghi (s * n_time + t) = at_time_station point_ghi /\
    elem dni (s * n_time + t) = at_time_station point_dni /\
    elem dhi (s * n_time + t) = at_time_station point_dhi.
Proof.
  intros z E m at_time_station Hf Hp Hsh Hsz Hs Ht.
  unfold REST2v5, REST2v5_homogeneous. rewrite Hf, Hp. fold z E m.
  rewrite call_clear_sky_eq. rewrite Hsh, Hsz.
  do 3 eexists. split; [reflexivity|].
  split; [by unfold transpose, ncols, nrows|].
  split; [by unfold transpose, ncols, nrows|].
  split; [by unfold transpose, ncols, nrows|].
  repeat split.
  all: rewrite (elem_transpose _ n_time (length (time self))) by done.
  all: unfold elem at 1; cbn [data].
  all: match goal with |- nth _ (?g <$> seq 0 ?n) _ = _ =>
         rewrite (elem_result g n) by (by apply agree_index) end.
  all: reflexivity.
Qed.

End OrchestratorForm.

(** X11, witness: two stations, two time stamps, frames as output. *)
Lemma REST2v5_values_nonneg_witness :
  shape (demo_zenith (lat (demo_self true)) (lon (demo_self true))
           (time_T (time (demo_self true))))
    = [2%nat; length (time (demo_self true))] /\
  size (demo_zenith (lat (demo_self true)) (lon (demo_self true))
          (time_T (time (demo_self true))))
    = (2 * length (time (demo_self true)))%nat /\
  Forall (fun x => nonneg_number x = true)
    (output_values (@REST2v5 RefNumPy.ref demo_zenith demo_eext demo_merra2 (demo_self true))).
Proof.
  assert (H1 : shape (demo_zenith (lat (demo_self true)) (lon (demo_self true))
                        (time_T (time (demo_self true))))
               = [2%nat; length (time (demo_self true))]) by reflexivity.
  assert (H2 : size (demo_zenith (lat (demo_self true)) (lon (demo_self true))
                       (time_T (time (demo_self true))))
               = (2 * length (time (demo_self true)))%nat) by reflexivity.
  exact (conj H1 (conj H2
    (@REST2v5_values_nonneg RefNumPy.ref demo_zenith demo_eext demo_merra2
       (demo_self true) 2%nat H1 H2))).
Defined.

(** X13, witness: the second station at the first time stamp. *)
Lemma batched_station_time_witness :
  same_flag (time (demo_self false)) = true /\
  pandas_output (demo_self false) = false /\
  (1 < length (time (demo_self false)))%nat /\
  exists ghi dni dhi,
    @REST2v5 RefNumPy.ref demo_zenith demo_eext demo_merra2 (demo_self false)
      = Batched ghi dni dhi /\
    shape ghi = [length (time (demo_self false)); 2%nat] /\
    shape dni = [length (time (demo_self false)); 2%nat] /\
    shape dhi = [length (time (demo_self false)); 2%nat].
Proof.
  assert (Hf : same_flag (time (demo_self false)) = true) by reflexivity.
  assert (Hp : pandas_output (demo_self false) = false) by reflexivity.
  assert (Hs : (1 < length (time (demo_self false)))%nat) by (cbn; lia).
  assert (Ht : (0 < 2)%nat) by lia.
  assert (Hsh : shape (amap (@np_deg2rad RefNumPy.ref)
                         (demo_zenith (lat (demo_self false)) (lon (demo_self false))
                            (time_T (time (demo_self false)))))
                = [2%nat; length (time (demo_self false))]) by reflexivity.
  assert (Hsz : size (amap (@np_deg2rad RefNumPy.ref)
                        (demo_zenith (lat (demo_self false)) (lon (demo_self false))
                           (time_T (time (demo_self false)))))
                = (2 * length (time (demo_self false)))%nat) by reflexivity.
  refine (conj Hf (conj Hp (conj Hs _))).
  destruct (@batched_station_time RefNumPy.ref demo_zenith demo_eext demo_merra2
              (demo_self false) 2%nat 1%nat 0%nat Hf Hp Hsh Hsz Hs Ht)
    as (ghi & dni & dhi & E & Sg & Sd & Sh & _).
  exists ghi, dni, dhi. exact (conj E (conj Sg (conj Sd Sh))).
Defined.
